(** * Windsurf Chess: the AI move resolution engine

    A shallow embedding of the move extractor (grok.js), the provider
    adapters and request routing (ai-models.js, o-models.js) and the retry
    logic of the game loop (game.js, settings.js), with the properties the
    specification states about them.

    Text is modelled as Rocq [string]s, i.e. sequences of 8-bit characters.
    On ASCII text every definition below coincides with the JavaScript
    built-in it embeds; characters above 127 are word-less, case-less and
    never white space. *)

From Stdlib Require Import List String Ascii Bool Arith ZArith Lia.
From Stdlib Require Import Floats.
From Stdlib Require Import DecimalString.
Import ListNotations.

Local Open Scope string_scope.
Local Open Scope bool_scope.

(* 0.7 and 0.3 stand for the binary64 numbers nearest to them, as in JavaScript. *)
Set Warnings "-inexact-float".

(* ===================================================================== *)
(** ** JavaScript string built-ins *)
(* ===================================================================== *)

Module JsText.

(** The line feed, written [\n] in the sources. *)
Definition LF : ascii := ascii_of_nat 10.
Definition nl : string := String LF "".

Definition code (c : ascii) : nat := nat_of_ascii c.

Definition between (lo hi : nat) (c : ascii) : bool :=
  (lo <=? code c)%nat && (code c <=? hi)%nat.

Definition isUpper : ascii -> bool := between 65 90.
Definition isLower : ascii -> bool := between 97 122.
Definition isDigit : ascii -> bool := between 48 57.

(** [\w]: letters, digits and the underscore. *)
Definition isWord (c : ascii) : bool :=
  isUpper c || isLower c || isDigit c || (code c =? 95)%nat.

(** [\s] and the characters removed by [trim]: TAB, LF, VT, FF, CR, SPACE. *)
Definition isSpace (c : ascii) : bool :=
  between 9 13 c || (code c =? 32)%nat.

Definition lowerChar (c : ascii) : ascii :=
  if isUpper c then ascii_of_nat (code c + 32) else c.

(** [s.toLowerCase()] *)
Fixpoint toLowerCase (s : string) : string :=
  match s with
  | "" => ""
  | String c s' => String (lowerChar c) (toLowerCase s')
  end.

(** A string is falsy exactly when it is empty. *)
Definition truthy (s : string) : bool :=
  match s with "" => false | _ => true end.

Fixpoint trimStart (s : string) : string :=
  match s with
  | "" => ""
  | String c s' => if isSpace c then trimStart s' else s
  end.

Fixpoint trimEnd (s : string) : string :=
  match s with
  | "" => ""
  | String c s' =>
      match trimEnd s' with
      | "" => if isSpace c then "" else String c ""
      | t => String c t
      end
  end.

(** [s.trim()] *)
Definition trim (s : string) : string := trimEnd (trimStart s).

(** [s.startsWith(p)] *)
Fixpoint startsWith (p s : string) : bool :=
  match p, s with
  | "", _ => true
  | String a p', String b s' => Ascii.eqb a b && startsWith p' s'
  | _, "" => false
  end.

(** [s.includes(p)] *)
Fixpoint includes (p s : string) : bool :=
  startsWith p s ||
  match s with
  | "" => false
  | String _ s' => includes p s'
  end.

(** [s.split('\n')[0]] *)
Fixpoint firstLineOf (s : string) : string :=
  match s with
  | "" => ""
  | String c s' => if Ascii.eqb c LF then "" else String c (firstLineOf s')
  end.

(** [s.slice(0, n)] for [n <= s.length] *)
Fixpoint take (n : nat) (s : string) : string :=
  match n, s with
  | S n', String c s' => String c (take n' s')
  | _, _ => ""
  end.

(** [a.join(sep)] *)
Fixpoint join (sep : string) (a : list string) : string :=
  match a with
  | [] => ""
  | [x] => x
  | x :: rest => x ++ sep ++ join sep rest
  end.

(** [a.includes(x)] on an array of strings *)
Definition arrayIncludes (a : list string) (x : string) : bool :=
  existsb (String.eqb x) a.

(** [text] contains [phrase] as a substring, letter case ignored
    ([phrase] itself being in lower case). *)
Definition containsPhrase (phrase text : string) : Prop :=
  exists pre mid post,
    text = pre ++ mid ++ post /\ toLowerCase mid = phrase.

(** The first, respectively last, character exists and is not white space. *)
Definition firstSolid (s : string) : bool :=
  match s with
  | "" => false
  | String c _ => negb (isSpace c)
  end.

Fixpoint lastSolid (s : string) : bool :=
  match s with
  | "" => false
  | String c "" => negb (isSpace c)
  | String _ s' => lastSolid s'
  end.

(** [b] extends [a]: [b.startsWith(a)] as a proposition. *)
Definition extends (a b : string) : Prop := exists ext, b = a ++ ext.

(** Every text of the list extends the one before it, the first one
    extending [prev]. *)
Fixpoint extending (prev : string) (texts : list string) : Prop :=
  match texts with
  | [] => True
  | t :: later => extends prev t /\ extending t later
  end.

End JsText.

(* ===================================================================== *)
(** ** The regular expressions of the sources

    A backtracking matcher with the priorities of ECMAScript: every
    function returns the ways a pattern can match in the order a
    JavaScript engine tries them, so the head of the list is the match
    the engine reports. *)
(* ===================================================================== *)

Module Regex.
Import JsText.

Inductive regex : Type :=
| Eps                              (* the empty pattern *)
| Chr (p : ascii -> bool)          (* one character of a class *)
| Cat (r1 r2 : regex)              (* r1 r2 *)
| Alt (r1 r2 : regex)              (* r1|r2 *)
| Opt (r : regex)                  (* r? (greedy) *)
| Star (p : ascii -> bool)         (* [class]* (greedy) *)
| WordB                            (* \b *)
| Bol                              (* ^ *)
| Eol                              (* $ *)
| Grp (r : regex).                 (* the capture group whose text is read *)

(** A matcher position: the character before the cursor (none at the
    start of the input), the text after it, and the last text captured. *)
Record cursor : Type := Cursor {
  before : option ascii;
  rest : string;
  captured : option string
}.

Definition wordBefore (k : cursor) : bool :=
  match before k with Some c => isWord c | None => false end.

Definition wordAfter (k : cursor) : bool :=
  match rest k with String c _ => isWord c | "" => false end.

Fixpoint star (p : ascii -> bool) (b : option ascii) (s : string)
    (cap : option string) : list cursor :=
  match s with
  | String c s' =>
      if p c then star p (Some c) s' cap ++ [Cursor b s cap]
      else [Cursor b s cap]
  | "" => [Cursor b s cap]
  end.

Fixpoint runs (r : regex) (k : cursor) : list cursor :=
  match r with
  | Eps => [k]
  | Chr p =>
      match rest k with
      | String c s' => if p c then [Cursor (Some c) s' (captured k)] else []
      | "" => []
      end
  | Cat r1 r2 => flat_map (runs r2) (runs r1 k)
  | Alt r1 r2 => runs r1 k ++ runs r2 k
  | Opt r1 => runs r1 k ++ [k]
  | Star p => star p (before k) (rest k) (captured k)
  | WordB => if xorb (wordBefore k) (wordAfter k) then [k] else []
  | Bol => match before k with None => [k] | Some _ => [] end
  | Eol => match rest k with "" => [k] | _ => [] end
  | Grp r1 =>
      map (fun k' =>
             Cursor (before k') (rest k')
               (Some (take (length (rest k) - length (rest k')) (rest k))))
          (runs r1 k)
  end.

(** The match the engine finds with the cursor at [k], if any: the text
    matched and the capture. *)
Definition matchHere (r : regex) (k : cursor) : option (string * option string) :=
  match runs r k with
  | k' :: _ =>
      Some (take (length (rest k) - length (rest k')) (rest k), captured k')
  | [] => None
  end.

(** [s.match(r)] without the [g] flag: the leftmost match. *)
Fixpoint searchFrom (r : regex) (b : option ascii) (s : string)
    : option (string * option string) :=
  match matchHere r (Cursor b s None) with
  | Some m => Some m
  | None =>
      match s with
      | String c s' => searchFrom r (Some c) s'
      | "" => None
      end
  end.

Definition exec (r : regex) (s : string) : option (string * option string) :=
  searchFrom r None s.

(** [r.test(s)] *)
Definition test (r : regex) (s : string) : bool :=
  match exec r s with Some _ => true | None => false end.

(** [s.match(new RegExp(r, 'g'))]: the texts of all matches, left to
    right, each search resuming where the previous match ended.  [skip]
    counts the characters of the previous match still to be passed.  (The
    patterns of the sources never match the empty string.) *)
Fixpoint matchAllFrom (r : regex) (skip : nat) (b : option ascii) (s : string)
    : list string :=
  match skip with
  | S n =>
      match s with
      | String c s' => matchAllFrom r n (Some c) s'
      | "" => []
      end
  | O =>
      match matchHere r (Cursor b s None), s with
      | Some (m, _), String c s' => m :: matchAllFrom r (length m - 1) (Some c) s'
      | Some (m, _), "" => [m]
      | None, String c s' => matchAllFrom r 0 (Some c) s'
      | None, "" => []
      end
  end.

Definition matchAll (r : regex) (s : string) : list string :=
  matchAllFrom r 0 None s.

(** *** Building blocks *)

Definition oneOf (set : string) (c : ascii) : bool :=
  existsb (Ascii.eqb c) (list_ascii_of_string set).

(** A character class under the [i] flag. *)
Definition ci (p : ascii -> bool) (c : ascii) : bool :=
  p c || p (lowerChar c) ||
  (isLower c && p (ascii_of_nat (code c - 32))).

Definition flag (i : bool) (p : ascii -> bool) : ascii -> bool :=
  if i then ci p else p.

Definition chr (i : bool) (c : ascii) : regex := Chr (flag i (Ascii.eqb c)).

(** A literal text. *)
Fixpoint lit (i : bool) (s : string) : regex :=
  match s with
  | "" => Eps
  | String c s' => Cat (chr i c) (lit i s')
  end.

Fixpoint alts (rs : list regex) : regex :=
  match rs with
  | [] => Chr (fun _ => false)
  | [r] => r
  | r :: rs' => Alt r (alts rs')
  end.

Fixpoint cats (rs : list regex) : regex :=
  match rs with
  | [] => Eps
  | [r] => r
  | r :: rs' => Cat r (cats rs')
  end.

Definition file (i : bool) : regex := Chr (flag i (between 97 104)).   (* [a-h] *)
Definition rank : regex := Chr (between 49 56).                        (* [1-8] *)
Definition piece (i : bool) : regex := Chr (flag i (oneOf "KQRBN")).   (* [KQRBN] *)
Definition checkMark : regex := Opt (Chr (oneOf "+#")).                (* [\+#]? *)
Definition spaces1 : regex := Cat (Chr isSpace) (Star isSpace).        (* \s+ *)

End Regex.

(* ===================================================================== *)
(** ** grok.js: the move extractor and the streaming accumulator *)
(* ===================================================================== *)

Module Grok.
Import JsText Regex.

(** *** extractValidChessMove *)

(** [errorPatterns]: each is a literal under the [i] flag. *)
Definition errorPhrases : list string :=
  [ "error"; "invalid"; "illegal"; "cannot"; "not allowed"; "认证失败";
    "authentication failed"; "unauthorized"; "api key"; "token" ].

Definition errorPatterns : list regex := map (lit true) errorPhrases.

(** [/^[a-h][1-8]|[KQRBN][a-h]?[1-8]?x?[a-h][1-8]|O-O(-O)?$/] *)
Definition shortMoveRegex : regex :=
  alts [ cats [Bol; file false; rank];
         cats [piece false; Opt (file false); Opt rank; Opt (chr false "x");
               file false; rank];
         cats [lit false "O-O"; Opt (lit false "-O"); Eol] ].

Definition moveRegexPatterns : list regex :=
  [ (* /\b([KQRBN][a-h]?[1-8]?x?[a-h][1-8][\+#]?)\b/ *)
    cats [WordB; piece false; Opt (file false); Opt rank; Opt (chr false "x");
          file false; rank; checkMark; WordB];
    (* /\b([a-h][1-8][\+#]?)\b/ *)
    cats [WordB; file false; rank; checkMark; WordB];
    (* /\b([a-h]x[a-h][1-8][\+#]?)\b/ *)
    cats [WordB; file false; chr false "x"; file false; rank; checkMark; WordB];
    (* /\b(O-O(?:-O)?[\+#]?)\b/ *)
    cats [WordB; lit false "O-O"; Opt (lit false "-O"); checkMark; WordB] ].

(** [([KQRBN]?[a-h]?[1-8]?x?[a-h][1-8]|O-O(?:-O)?)] under the [i] flag: the
    last capture group of every contextual pattern. *)
Definition phraseMove : regex :=
  Grp (Alt (cats [Opt (piece true); Opt (file true); Opt rank;
                  Opt (chr true "x"); file true; rank])
           (cats [lit true "O-O"; Opt (lit true "-O")])).

Definition contextPatterns : list regex :=
  [ (* /\b(play|move|choose|select|best|recommend|suggest)s?\s+(...)/i *)
    cats [WordB;
          alts (map (lit true)
                  ["play"; "move"; "choose"; "select"; "best"; "recommend";
                   "suggest"]);
          Opt (chr true "s"); spaces1; phraseMove];
    (* /best move (is|would be) (...)/i *)
    cats [lit true "best move "; Alt (lit true "is") (lit true "would be");
          lit true " "; phraseMove];
    (* /I('ll| will) (play|move|choose|select) (...)/i *)
    cats [lit true "I"; Alt (lit true "'ll") (lit true " will"); lit true " ";
          alts (map (lit true) ["play"; "move"; "choose"; "select"]);
          lit true " "; phraseMove] ].

(** The error guard: some pattern is found in the trimmed response or in
    a non-empty reasoning text. *)
Definition errorDetected (cleanedResponse reasoningText : string) : bool :=
  existsb (fun pattern =>
             test pattern cleanedResponse ||
             (truthy reasoningText && test pattern reasoningText))
          errorPatterns.

(** The short-response candidate. *)
Definition directMoves (cleanedResponse : string) : list string :=
  if (length cleanedResponse <? 6)%nat && test shortMoveRegex cleanedResponse
  then [cleanedResponse] else [].

(** [extractMovesFromText]: the matches of each pattern in turn. *)
Definition extractMovesFromText (text : string) : list string :=
  flat_map (fun r => matchAll r text) moveRegexPatterns.

(** The loop over [contextPatterns]: the last capture group of each match. *)
Definition contextMoves (combinedText : string) : list string :=
  flat_map (fun pattern =>
              match exec pattern combinedText with
              | Some (_, Some mv) => if truthy mv then [mv] else []
              | _ => []
              end)
           contextPatterns.

(** [potentialMoves], in the order the source pushes to it. *)
Definition potentialMoves (cleanedResponse reasoningText : string) : list string :=
  directMoves cleanedResponse
  ++ extractMovesFromText cleanedResponse
  ++ (if truthy reasoningText then extractMovesFromText reasoningText else [])
  ++ contextMoves (cleanedResponse ++ " " ++ reasoningText).

(** The filter predicate: a legal move, exactly or up to letter case. *)
Definition matchesLegal (legalMoves : list string) (move : string) : bool :=
  arrayIncludes legalMoves move ||
  existsb (fun legalMove =>
             String.eqb (toLowerCase legalMove) (toLowerCase move))
          legalMoves.

(** [legalMoves] is [None] for the default [null]. *)
Definition extractValidChessMove (responseText reasoningText : string)
    (legalMoves : option (list string)) : string :=
  if negb (truthy responseText) && negb (truthy reasoningText) then "" else
  let cleanedResponse := trim responseText in
  if errorDetected cleanedResponse reasoningText then "" else
  let potential := potentialMoves cleanedResponse reasoningText in
  let legalPotentialMoves :=
    match legalMoves with
    | Some ((_ :: _) as legal) =>
        match potential with
        | _ :: _ => filter (matchesLegal legal) potential
        | [] => []
        end
    | _ => []
    end in
  match legalPotentialMoves with
  | first :: _ => first
  | [] =>
      match potential with
      | first :: _ => first
      | [] =>
          let firstLine := trim (firstLineOf cleanedResponse) in
          if (0 <? length firstLine)%nat && (length firstLine <? 10)%nat
          then firstLine
          else cleanedResponse
      end
  end.


(** *** checkIfChessContext *)

(** A chat message; [reasoning_content] is [None] when the property is
    absent. *)
Record Message : Type := {
  role : string;
  content : string;
  reasoning_content : option string
}.

Definition chessKeywords : list string :=
  ["chess"; "FEN"; "move"; "algebraic notation"; "board state"].

(** For an array of messages (the only form the callers pass). *)
Definition checkIfChessContext (messages : list Message) : bool :=
  existsb (fun message =>
             existsb (fun keyword => includes keyword (content message))
                     chessKeywords)
          messages.

(** *** streamGrokResponse: reading the event stream

    The stream is given as the sequence of its server-sent-event lines
    after [JSON.parse]: a line carrying a [choices[0].delta] object, whose
    absent fields read as the empty string, or any other line (the
    [DONE] marker, a line without the [data: ] prefix, and a line whose
    processing throws, all of which the loop passes over). *)
Inductive sseRecord : Type :=
| Delta (content reasoning_content : string)
| Skipped.

(** The argument of one [onUpdate] call. *)
Record update : Type := {
  u_content : string;
  u_reasoning : option string
}.

Record streamState : Type := {
  fullContent : string;
  fullReasoning : string;
  delivered : list update          (* the calls of [onUpdate], oldest first *)
}.

Definition streamStart : streamState :=
  {| fullContent := ""; fullReasoning := ""; delivered := [] |}.

(** The body of the [try] block for one line. *)
Definition onRecord (model : string) (st : streamState) (r : sseRecord)
    : streamState :=
  match r with
  | Skipped => st
  | Delta content reasoning =>
      let st1 :=
        if truthy content then
          let full := fullContent st ++ content in
          {| fullContent := full;
             fullReasoning := fullReasoning st;
             delivered := delivered st
                          ++ [{| u_content := full; u_reasoning := None |}] |}
        else st in
      if String.eqb model "grok-3-mini-beta" && truthy reasoning then
        let fullR := fullReasoning st1 ++ reasoning in
        {| fullContent := fullContent st1;
           fullReasoning := fullR;
           delivered := delivered st1
                        ++ [{| u_content := fullContent st1;
                               u_reasoning := Some fullR |}] |}
      else st1
  end.

Definition readStream (model : string) (records : list sseRecord) : streamState :=
  fold_left (onRecord model) records streamStart.

(** The invariant of the Grok loop: the contents delivered form a chain,
    and the last one is the content accumulated. *)
Definition cumulative (st : streamState) : Prop :=
  extending "" (map u_content (delivered st)) /\
  last (map u_content (delivered st)) "" = fullContent st.

(** The object returned; [reasoning] is [None] when the property is
    absent. *)
Record grokResult : Type := {
  response : string;
  reasoning : option string
}.

(** [streamGrokResponse] for a request that was answered with an ok
    status: the updates delivered to [onUpdate] and the value returned. *)
Definition streamGrokResponse (model : string) (messages : list Message)
    (records : list sseRecord) : list update * grokResult :=
  let st := readStream model records in
  let isChessContext := checkIfChessContext messages in
  if String.eqb model "grok-3-mini-beta" then
    (delivered st,
     {| response := if isChessContext
                    then extractValidChessMove (fullContent st) (fullReasoning st) None
                    else fullContent st;
        reasoning := Some (fullReasoning st) |})
  else
    (delivered st,
     {| response := if isChessContext
                    then extractValidChessMove (fullContent st) "" None
                    else fullContent st;
        reasoning := None |}).

End Grok.

(* ===================================================================== *)
(** ** The rules engine (chess.js), consumed through its interface *)
(* ===================================================================== *)

Module Chess.

(** A square of [board()]: [ptype] is one of p n b r q k, [color] w or b. *)
Record Piece : Type := { ptype : string; color : string }.

Class Engine (Position : Type) : Type := {
  fen : Position -> string;
  moves : Position -> list string;
  (** [move(san)]: the position reached and the move made, [None] for the
      [null] returned on an illegal move (the position then stays). *)
  move : Position -> string -> option (Position * string);
  board : Position -> list (list (option Piece));
  game_over : Position -> bool
}.

End Chess.

(* ===================================================================== *)
(** ** ai-models.js and o-models.js: provider adapters and routing *)
(* ===================================================================== *)

Module Models.
Import JsText Grok.

Inductive jsError : Type :=
| ReferenceError (identifier : string)   (* identifier is not defined *)
| Error (message : string).

Inductive result (A : Type) : Type :=
| Return (a : A)
| Throw (e : jsError).
Arguments Return {A} a.
Arguments Throw {A} e.

Definition bind {A B} (r : result A) (f : A -> result B) : result B :=
  match r with
  | Return a => f a
  | Throw e => Throw e
  end.

Notation "x <- r ;; k" := (bind r (fun x => k))
  (at level 61, r at next level, right associativity).

(** [x || d] for a number, a string and a possibly absent property. *)
Definition floatOr (x d : float) : float :=
  if PrimFloat.is_zero x || PrimFloat.is_nan x then d else x.

Definition numOr (x d : Z) : Z := if (x =? 0)%Z then d else x.

Definition textOr (x : option string) (d : string) : string :=
  match x with
  | Some t => if truthy t then t else d
  | None => d
  end.

Definition isTrue (x : option bool) : bool :=
  match x with Some true => true | _ => false end.

(** The configuration object handed to [callAIModel]; [None] is
    [undefined]. *)
Record Config : Type := {
  cfg_apiKey : string;
  cfg_model : string;
  cfg_temperature : float;
  cfg_maxTokens : Z;
  cfg_streaming : option bool;
  cfg_userPrompt : option string;
  cfg_retryCount : Z;
  cfg_legalMoves : list string;
  cfg_customPrompt : option string
}.

(** The object a chat-completions adapter serialises with
    [JSON.stringify]; a property that is absent or [undefined], and so
    left out of the JSON text, is [None]. *)
Record ChatBody : Type := {
  b_model : string;
  b_messages : list Message;
  b_temperature : option float;
  b_max_tokens : option Z;
  b_max_completion_tokens : option Z;
  b_stream : option bool;
  b_reasoning_effort : option string
}.

(** The Gemini body: the texts of its two [contents] entries and
    [generationConfig] (the [safetySettings] are constant). *)
Record GeminiBody : Type := {
  systemText : string;
  userText : string;
  g_temperature : float;
  maxOutputTokens : Z
}.

Inductive Body : Type :=
| ChatJson (b : ChatBody)
| GeminiJson (b : GeminiBody).

(** One call of [fetch]: all requests are POSTs of JSON. *)
Record Fetch : Type := {
  url : string;
  authorization : option string;
  body : Body
}.

Definition msg (r c : string) : Message :=
  {| role := r; content := c; reasoning_content := None |}.

(** *** o-models.js *)

Definition O_SERIES_MODELS : list string := ["o3-mini-high"; "o4-mini"].

Definition isOSeriesModel (modelId : string) : bool :=
  arrayIncludes O_SERIES_MODELS modelId ||
  startsWith "o3-" modelId || startsWith "o4-" modelId.

Definition openaiSystemPrompt : string :=
  "You are a chess engine. Your task is to analyze the current board position and make the best move possible. Respond ONLY with your chosen move in standard algebraic notation. Valid examples: 'e4', 'Nf3', 'cxd4', 'O-O', 'Qxb7+', etc. Be extremely careful to verify that your move is legal in the current position. For complex positions, consider checks, pins, and material threats carefully. For captures, explicitly use notation like 'cxd4' instead of just 'd4'.".

Definition openaiUserPrompt (fenText : string) (moveHistory : list string) : string :=
  "Current board state (FEN): " ++ fenText ++ nl ++ nl ++
  "Move history: " ++ join ", " moveHistory ++ nl ++ nl ++
  "Provide your next move in standard algebraic notation (e.g., 'e4', 'Nf3').".

Definition openaiEndpoint : string := "https://api.openai.com/v1/chat/completions".

(** What [callAIModel] resolves to. *)
Record AiResponse : Type := { ai_move : string; thinking : string }.

Section Adapters.
Context {Position : Type} `{Chess.Engine Position}.

Definition generateOModelRequest (boardState : Position)
    (moveHistory : list string) (config : Config) : Fetch :=
  let userContent :=
    textOr (cfg_userPrompt config)
           (openaiUserPrompt (Chess.fen boardState) moveHistory) in
  {| url := openaiEndpoint;
     authorization := Some ("Bearer " ++ cfg_apiKey config);
     body := ChatJson
       {| b_model := cfg_model config;
          b_messages := [msg "system" openaiSystemPrompt; msg "user" userContent];
          b_temperature := None;
          b_max_tokens := None;
          b_max_completion_tokens := Some (numOr (cfg_maxTokens config) 150);
          b_stream := None;
          b_reasoning_effort := None |} |}.

(** *** AI_MODELS.openai.requestFormat *)

Definition openai_requestFormat (boardState : Position)
    (moveHistory : list string) (config : Config) : Fetch :=
  let reasoningModel :=
    startsWith "o4-" (cfg_model config) || startsWith "o3-" (cfg_model config) in
  {| url := openaiEndpoint;
     authorization := Some ("Bearer " ++ cfg_apiKey config);
     body := ChatJson
       {| b_model := cfg_model config;
          b_messages :=
            [msg "system" openaiSystemPrompt;
             msg "user" (textOr (cfg_userPrompt config)
                           (openaiUserPrompt (Chess.fen boardState) moveHistory))];
          b_temperature :=
            if reasoningModel then None else Some (cfg_temperature config);
          b_max_tokens :=
            if reasoningModel then None else Some (cfg_maxTokens config);
          b_max_completion_tokens :=
            if reasoningModel then Some (cfg_maxTokens config) else None;
          b_stream := cfg_streaming config;
          b_reasoning_effort := None |} |}.

(** *** AI_MODELS.xai.requestFormat *)

Definition xaiSystemPrompt : string :=
  "You are a chess engine analyzing a position to make the best legal move. Your ONLY task is to choose and return a single valid move in standard algebraic notation (SAN). DO NOT explain your reasoning or provide any commentary. DO NOT return the string 'e4' unless the e-pawn can legally move to e4. Valid examples: 'e4', 'Nf3', 'cxd4', 'O-O', 'Qxb7+'. For captures, explicitly use notation like 'cxd4'. Only return a legal move!".

Record GrokOptions : Type := {
  o_temperature : float;
  o_max_tokens : Z;
  o_reasoning_effort : option string
}.

Record GrokRequestData : Type := {
  rd_messages : list Message;
  rd_options : GrokOptions;
  rd_streaming : option bool
}.

Definition xai_requestFormat (boardState : Position)
    (moveHistory : list string) (config : Config) : result GrokRequestData :=
  let userPrompt :=
    match cfg_customPrompt config with
    | Some custom =>
        if truthy custom then custom
        else "Current board state: " ++ Chess.fen boardState ++ nl ++ nl ++
             "Move history: " ++ join ", " moveHistory ++ nl ++ nl ++
             "Provide your NEXT MOVE ONLY in standard algebraic notation."
    | None =>
        "Current board state: " ++ Chess.fen boardState ++ nl ++ nl ++
        "Move history: " ++ join ", " moveHistory ++ nl ++ nl ++
        "Provide your NEXT MOVE ONLY in standard algebraic notation."
    end in
  let messages := [msg "system" xaiSystemPrompt; msg "user" userPrompt] in
  (* [cleanOptions] is declared nowhere: reading it throws. *)
  _ <- (if (cfg_retryCount config >? 0)%Z
        then Throw (ReferenceError "cleanOptions")
        else Return tt) ;;
  let miniModel := String.eqb (cfg_model config) "grok-3-mini-beta" in
  let messages :=
    if miniModel && (cfg_retryCount config =? 0)%Z then
      match messages with
      | first :: others =>
          first ::
          {| role := "assistant"; content := "e4";
             reasoning_content :=
               Some "Looking at this position, I have several options." |}
          :: others
      | [] => messages
      end
    else messages in
  Return
    {| rd_messages := messages;
       rd_options :=
         {| o_temperature := floatOr (cfg_temperature config) 0.7%float;
            o_max_tokens :=
              if (cfg_retryCount config >? 0)%Z then 1024%Z
              else numOr (cfg_maxTokens config) 2048;
            o_reasoning_effort :=
              if miniModel
              then Some (if (cfg_retryCount config >? 0)%Z then "medium" else "high")
              else None |};
       rd_streaming := cfg_streaming config |}.

(** *** AI_MODELS.gemini.requestFormat *)

Definition geminiSystemText : string :=
  "You are a chess engine. Your task is to analyze the current board position and make the best move possible. Respond ONLY with your chosen move in standard algebraic notation (e.g., 'e4', 'Nf3', etc.).".

Definition gemini_requestFormat (boardState : Position)
    (moveHistory : list string) (config : Config) : Fetch :=
  let endpoint :=
    "https://generativelanguage.googleapis.com/v1beta/models/"
    ++ cfg_model config ++ ":generateContent" in
  {| url := endpoint ++ "?key=" ++ cfg_apiKey config;
     authorization := None;
     body := GeminiJson
       {| systemText := geminiSystemText;
          userText := openaiUserPrompt (Chess.fen boardState) moveHistory;
          g_temperature := cfg_temperature config;
          maxOutputTokens := cfg_maxTokens config |} |}.

(** *** grok.js: the request of sendGrokRequest and streamGrokResponse *)

Definition GROK_API_URL : string := "https://api.x.ai/v1/chat/completions".

Definition cleanedMessages (model : string) (messages : list Message) : list Message :=
  map (fun m =>
         {| role := role m;
            content := content m;
            reasoning_content :=
              if String.eqb model "grok-3-mini-beta" && String.eqb (role m) "assistant"
              then match reasoning_content m with
                   | Some r => if truthy r then Some r else None
                   | None => None
                   end
              else None |})
      messages.

Definition grokBody (model : string) (messages : list Message)
    (options : GrokOptions) (stream : bool) : Fetch :=
  {| url := GROK_API_URL;
     authorization := None;
     body := ChatJson
       {| b_model := model;
          b_messages := cleanedMessages model messages;
          b_temperature := Some (o_temperature options);
          b_max_tokens := Some (o_max_tokens options);
          b_max_completion_tokens := None;
          b_stream := Some stream;
          b_reasoning_effort :=
            if String.eqb model "grok-3-mini-beta"
            then Some (textOr (o_reasoning_effort options) "high")
            else None |} |}.

Definition withBearer (apiKey : string) (f : Fetch) : Fetch :=
  {| url := url f; authorization := Some ("Bearer " ++ apiKey); body := body f |}.

(** [sendGrokRequest], up to its call of [fetch]. *)
Definition sendGrokRequest (apiKey model : string) (messages : list Message)
    (options : GrokOptions) (stream : bool) : result Fetch :=
  if negb (truthy apiKey) then Throw (Error "API key is required")
  else if negb (truthy model) ||
          (negb (String.eqb model "grok-3-mini-beta") &&
           negb (String.eqb model "grok-3-latest"))
  then Throw (Error "Invalid model specified. Use either grok-3-mini-beta or grok-3-latest")
  else match messages with
       | [] => Throw (Error "At least one message is required")
       | _ => Return (withBearer apiKey (grokBody model messages options stream))
       end.

(** [streamGrokResponse], up to its call of [fetch]. *)
Definition streamGrokRequest (apiKey model : string) (messages : list Message)
    (options : GrokOptions) : result Fetch :=
  if negb (truthy apiKey) then Throw (Error "API key is required")
  else Return (withBearer apiKey (grokBody model messages options true)).

(** *** callAIModel

    The call up to the request it hands to [fetch]: the request, or the
    exception thrown before any request is sent.  The provider names are
    the three keys of [AI_MODELS]. *)
Definition callAIModel (provider : string) (boardState : Position)
    (moveHistory : list string) (config : Config) : result Fetch :=
  if negb (String.eqb provider "openai" || String.eqb provider "xai"
           || String.eqb provider "gemini")
  then Throw (Error ("Unknown provider: " ++ provider))
  else if String.eqb provider "openai" && isOSeriesModel (cfg_model config)
  then Return (generateOModelRequest boardState moveHistory config)
  else if String.eqb provider "xai" then
    requestData <- xai_requestFormat boardState moveHistory config ;;
    if isTrue (rd_streaming requestData) then
      streamGrokRequest (cfg_apiKey config) (cfg_model config)
        (rd_messages requestData) (rd_options requestData)
    else
      let options := rd_options requestData in
      let enhancedOptions :=
        {| o_temperature := o_temperature options;
           o_max_tokens :=
             if (cfg_retryCount config >? 0)%Z then 1024%Z
             else numOr (o_max_tokens options) 2048;
           o_reasoning_effort := o_reasoning_effort options |} in
      sendGrokRequest (cfg_apiKey config) (cfg_model config)
        (rd_messages requestData) enhancedOptions false
  else if String.eqb provider "openai"
  then Return (openai_requestFormat boardState moveHistory config)
  else Return (gemini_requestFormat boardState moveHistory config).

End Adapters.

(** *** Reading a request back *)

(** The sampling temperature a request carries, if it carries one. *)
Definition sentTemperature (f : Fetch) : option float :=
  match body f with
  | ChatJson b => b_temperature b
  | GeminiJson b => Some (g_temperature b)
  end.

(** The token limit a request carries, under whichever name. *)
Definition sentTokenLimit (f : Fetch) : option Z :=
  match body f with
  | ChatJson b =>
      match b_max_tokens b with
      | Some n => Some n
      | None => b_max_completion_tokens b
      end
  | GeminiJson b => Some (maxOutputTokens b)
  end.

(** Whether a request asks for a streamed reply. *)
Definition sentStream (f : Fetch) : bool :=
  match body f with
  | ChatJson b => isTrue (b_stream b)
  | GeminiJson _ => false
  end.

(** The text of the user turn of a request. *)
Definition userPromptOf (f : Fetch) : string :=
  match body f with
  | ChatJson b => content (last (b_messages b) (msg "" ""))
  | GeminiJson b => userText b
  end.

(** *** AI_MODELS.openai.parseResponse, streaming branch

    [chunks] gives, for each chunk read, the complete event lines it
    brings, as for [streamGrokResponse]; [callbackDefined] tells whether
    a global function [updateThinkingCallback] exists (this code base
    declares none).  The result: the texts passed to the callback, and
    the response. *)

(** [/\b([a-h][1-8]|[KQRBN][a-h]?[1-8]?x?[a-h][1-8]|O-O(?:-O)?)\b/] *)
Definition plainMoveRegex : Regex.regex :=
  Regex.cats
    [Regex.WordB;
     Regex.alts
       [Regex.cats [Regex.file false; Regex.rank];
        Regex.cats [Regex.piece false; Regex.Opt (Regex.file false);
                    Regex.Opt Regex.rank; Regex.Opt (Regex.chr false "x");
                    Regex.file false; Regex.rank];
        Regex.cats [Regex.lit false "O-O"; Regex.Opt (Regex.lit false "-O")]];
     Regex.WordB].

Definition onChunk (callbackDefined : bool) (st : string * list string)
    (chunk : list sseRecord) : string * list string :=
  let thinking :=
    fold_left (fun acc r =>
                 match r with
                 | Delta content _ => if truthy content then acc ++ content else acc
                 | Skipped => acc
                 end)
              chunk (fst st) in
  (thinking, if callbackDefined then (snd st ++ [thinking])%list else snd st).

(** The invariant of the loop when the callback exists: the texts passed
    to it form a chain, and the last one is the text accumulated. *)
Definition cumulativeSeen (st : string * list string) : Prop :=
  extending "" (snd st) /\ last (snd st) "" = fst st.

Definition openai_parseStream (callbackDefined : bool)
    (chunks : list (list sseRecord)) : list string * AiResponse :=
  let st := fold_left (onChunk callbackDefined) chunks ("", []) in
  let finalThinking := trim (fst st) in
  let cleanedMove :=
    match Regex.exec plainMoveRegex finalThinking with
    | Some (m, _) => m
    | None => ""
    end in
  (snd st, {| ai_move := cleanedMove; thinking := finalThinking |}).

End Models.

(* ===================================================================== *)
(** ** settings.js and game.js: settings, the game loop and its retries *)
(* ===================================================================== *)

Module Game.
Import JsText Grok Models.

(** *** Settings *)

(** A player's settings object.  [customPrompt] is not among the defaults:
    the property is absent ([None]) until [handleInvalidMove] assigns it. *)
Record PlayerSettings : Type := {
  provider : string;
  model : string;
  apiKey : string;
  streaming : bool;
  temperature : float;
  maxTokens : Z;
  customPrompt : option string
}.

(** The general settings object: [defaults.general] and
    [updateSettingsFromForm] give it these two properties and no other. *)
Record GeneralSettings : Type := {
  maxRetries : Z;
  moveDelay : Z
}.

(** Reading a property the general settings object does not have gives
    [undefined]. *)
Definition general_temperature (_ : GeneralSettings) : option float := None.
Definition general_maxTokens (_ : GeneralSettings) : option Z := None.
Definition general_streaming (_ : GeneralSettings) : option bool := None.

Record Settings : Type := {
  whitePlayer : PlayerSettings;
  blackPlayer : PlayerSettings;
  general : GeneralSettings
}.

Definition defaultPlayer : PlayerSettings :=
  {| provider := ""; model := ""; apiKey := ""; streaming := true;
     temperature := 0.7%float; maxTokens := 1024; customPrompt := None |}.

Definition defaults : Settings :=
  {| whitePlayer := defaultPlayer;
     blackPlayer := defaultPlayer;
     general := {| maxRetries := 3; moveDelay := 1000 |} |}.

Inductive Player : Type := white | black.

Definition playerName (p : Player) : string :=
  match p with white => "white" | black => "black" end.

Definition getPlayerSettings (s : Settings) (p : Player) : PlayerSettings :=
  match p with white => whitePlayer s | black => blackPlayer s end.

Definition getGeneralSettings (s : Settings) : GeneralSettings := general s.

(** An assignment through the reference [getPlayerSettings] returns: the
    settings object itself changes. *)
Definition setPlayerSettings (s : Settings) (p : Player) (ps : PlayerSettings)
    : Settings :=
  match p with
  | white => {| whitePlayer := ps; blackPlayer := blackPlayer s; general := general s |}
  | black => {| whitePlayer := whitePlayer s; blackPlayer := ps; general := general s |}
  end.

(** [Math.min] on numbers. *)
Definition Math_min (x y : float) : float :=
  if PrimFloat.is_nan x then x
  else if PrimFloat.is_nan y then y
  else if PrimFloat.ltb x y then x
  else if PrimFloat.ltb y x then y
  else if PrimFloat.get_sign x then x else y.

(** *** The game object *)

Inductive Status : Type := idle | running | paused | finished.

Record GameState : Type := {
  status : Status;
  currentPlayer : Player;
  moveHistory : list string        (* the [san] of every move made *)
}.

Section Loop.
Context {Position : Type} `{Chess.Engine Position}.

(** The fields of [Game] the engine reads and writes.  [moveTimer] holds
    the delay of the [setTimeout] last set and not cleared, whose
    callback is [makeNextMove]; [sent] lists the requests handed to
    [fetch] so far, oldest first. *)
Record Game : Type := {
  chess : Position;
  gameState : GameState;
  settings : Settings;
  moveTimer : option Z;
  retryCount : Z;
  sent : list Fetch
}.

Definition setStatus (g : Game) (st : Status) : Game :=
  {| chess := chess g;
     gameState := {| status := st;
                     currentPlayer := currentPlayer (gameState g);
                     moveHistory := moveHistory (gameState g) |};
     settings := settings g;
     moveTimer := moveTimer g;
     retryCount := retryCount g;
     sent := sent g |}.

(** [getPieceName] *)
Definition getPieceName (type color : string) : string :=
  let colorName := if String.eqb color "w" then "White" else "Black" in
  let pieceName :=
    if String.eqb type "p" then "pawn"
    else if String.eqb type "n" then "knight"
    else if String.eqb type "b" then "bishop"
    else if String.eqb type "r" then "rook"
    else if String.eqb type "q" then "queen"
    else if String.eqb type "k" then "king"
    else "unknown" in
  colorName ++ " " ++ pieceName.

(** [String.fromCharCode(97 + col) + (8 - row)], for indices below eight. *)
Definition squareName (row col : nat) : string :=
  String (ascii_of_nat (97 + col)) (String (ascii_of_nat (48 + (8 - row))) "").

(** [describeBoardState]: the pieces of the 8 by 8 board, row by row. *)
Definition describeBoardState (position : Position) : string :=
  let rows := Chess.board position in
  join ", "
    (flat_map (fun row =>
       flat_map (fun col =>
         match nth col (nth row rows []) None with
         | Some piece =>
             [getPieceName (Chess.ptype piece) (Chess.color piece)
              ++ " at " ++ squareName row col]
         | None => []
         end)
         (seq 0 8))
       (seq 0 8)).

(** What one call of [makeNextMove] came to. *)
Inductive Outcome : Type :=
| NotRunning                         (* returned at once *)
| Accepted (san : string)            (* the move was made *)
| RetryScheduled                     (* invalid move, retry timer set *)
| Exhausted (attemptsMade : Z)       (* invalid move, retries used up *)
| Failed (e : jsError).              (* the [catch] block ran *)

(** [handleInvalidMove] *)
Definition handleInvalidMove (g : Game) (player : Player) (moveString : string)
    : Game * Outcome :=
  let generalSettings := getGeneralSettings (settings g) in
  let playerSettings := getPlayerSettings (settings g) player in
  let simpleLegalMoves := Chess.moves (chess g) in
  let retryCount' := (retryCount g + 1)%Z in
  if (retryCount' >=? maxRetries generalSettings)%Z then
    ({| chess := chess g;
        gameState := {| status := paused;
                        currentPlayer := currentPlayer (gameState g);
                        moveHistory := moveHistory (gameState g) |};
        settings := settings g;
        moveTimer := moveTimer g;
        retryCount := 0;
        sent := sent g |},
     Exhausted retryCount')
  else
    let escalate := (retryCount' >? 1)%Z in
    let currentFEN := Chess.fen (chess g) in
    let piecePositions := describeBoardState (chess g) in
    let playerSettings' :=
      {| provider := provider playerSettings;
         model := model playerSettings;
         apiKey := apiKey playerSettings;
         streaming := streaming playerSettings;
         temperature :=
           if escalate
           then Math_min (temperature playerSettings + 0.3)%float 1.0%float
           else temperature playerSettings;
         maxTokens :=
           if escalate
           then Z.min (maxTokens playerSettings + 500) 4096
           else maxTokens playerSettings;
         customPrompt :=
           Some ("Current board state (FEN): " ++ currentFEN ++ nl ++ nl ++
                 "Piece positions: " ++ piecePositions ++ nl ++ nl ++
                 "Previous invalid move: " ++ moveString ++ nl ++ nl ++
                 "Legal moves: " ++ join ", " simpleLegalMoves ++ nl ++ nl ++
                 "Please select a valid move from the list of legal moves provided.")
      |} in
    ({| chess := chess g;
        gameState := gameState g;
        settings := setPlayerSettings (settings g) player playerSettings';
        moveTimer := Some 1000%Z;
        retryCount := retryCount';
        sent := sent g |},
     RetryScheduled).

(** The configuration [makeNextMove] passes to [callAIModel]. *)
Definition moveConfig (g : Game) : Config :=
  let playerSettings := getPlayerSettings (settings g) (currentPlayer (gameState g)) in
  let generalSettings := getGeneralSettings (settings g) in
  {| cfg_apiKey := apiKey playerSettings;
     cfg_model := model playerSettings;
     cfg_temperature :=
       match general_temperature generalSettings with
       | Some t => floatOr t 0.7%float
       | None => 0.7%float
       end;
     cfg_maxTokens :=
       match general_maxTokens generalSettings with
       | Some n => numOr n 2048
       | None => 2048%Z
       end;
     cfg_streaming := general_streaming generalSettings;
     cfg_userPrompt := customPrompt playerSettings;
     cfg_retryCount := retryCount g;
     cfg_legalMoves := Chess.moves (chess g);
     cfg_customPrompt := None |}.

(** The request [makeNextMove] would have [callAIModel] send. *)
Definition moveRequest (g : Game) : result Fetch :=
  callAIModel (provider (getPlayerSettings (settings g) (currentPlayer (gameState g))))
              (chess g) (moveHistory (gameState g)) (moveConfig g).

(** [makeNextMove].  [answer] is what the call of [callAIModel] comes to
    once its request has been sent: the response as the adapter parses
    it, or an exception.  (For the xAI adapter it is always an exception
    when the reply is not streamed: [parseResponse] calls
    [window.GrokModels.extractValidChessMove], which grok.js does not
    put on [window.GrokModels].) *)
Definition makeNextMove (g : Game) (answer : result AiResponse) : Game * Outcome :=
  match status (gameState g) with
  | running =>
      let player := currentPlayer (gameState g) in
      let generalSettings := getGeneralSettings (settings g) in
      match moveRequest g with
      | Throw e => (setStatus g paused, Failed e)
      | Return request =>
          let g1 :=
            {| chess := chess g; gameState := gameState g;
               settings := settings g; moveTimer := moveTimer g;
               retryCount := retryCount g;
               sent := sent g ++ [request] |} in
          match answer with
          | Throw e => (setStatus g1 paused, Failed e)
          | Return aiResponse =>
              let moveString := ai_move aiResponse in
              match Chess.move (chess g1) moveString with
              | Some (position', san) =>
                  let status' :=
                    if Chess.game_over position' then finished else running in
                  ({| chess := position';
                      gameState :=
                        {| status := status';
                           currentPlayer :=
                             match player with white => black | black => white end;
                           moveHistory := moveHistory (gameState g1) ++ [san] |};
                      settings := settings g1;
                      moveTimer :=
                        match status' with
                        | running => Some (numOr (moveDelay generalSettings) 1000)
                        | _ => moveTimer g1
                        end;
                      retryCount := 0;
                      sent := sent g1 |},
                   Accepted san)
              | None => handleInvalidMove g1 player moveString
              end
          end
      end
  | _ => (g, NotRunning)
  end.

(** One ply: [makeNextMove] and, for as long as it schedules a retry,
    the timer firing and calling it again.  [answers] gives what each
    successive call of the AI comes to; the ply is still waiting when
    they run out. *)
Inductive PlyResult : Type :=
| Waiting
| Ended (o : Outcome).

Fixpoint resolvePly (answers : list (result AiResponse)) (g : Game)
    : Game * PlyResult :=
  match answers with
  | [] => (g, Waiting)
  | answer :: later =>
      match makeNextMove g answer with
      | (g', RetryScheduled) => resolvePly later g'
      | (g', o) => (g', Ended o)
      end
  end.


(** [g] with other values for the temperature, the token limit and the
    streaming switch of the two players, and nothing else changed. *)
Definition retuned (ps : PlayerSettings) (t : float) (n : Z) (st : bool)
    : PlayerSettings :=
  {| provider := provider ps; model := model ps; apiKey := apiKey ps;
     streaming := st; temperature := t; maxTokens := n;
     customPrompt := customPrompt ps |}.

Definition retune (g : Game) (tw : float) (nw : Z) (sw : bool)
    (tb : float) (nb : Z) (sb : bool) : Game :=
  {| chess := chess g;
     gameState := gameState g;
     settings :=
       {| whitePlayer := retuned (whitePlayer (settings g)) tw nw sw;
          blackPlayer := retuned (blackPlayer (settings g)) tb nb sb;
          general := general (settings g) |};
     moveTimer := moveTimer g;
     retryCount := retryCount g;
     sent := sent g |}.



End Loop.

(** An answer of the AI that names the move [m]. *)
Definition answerMove (m : string) : result AiResponse :=
  Return {| ai_move := m; thinking := m |}.

End Game.

(* ===================================================================== *)
(** ** A scripted rules engine

    An instance of the engine interface on which the game loop can be
    run: a position is a finite tree of the moves playable from it. *)
(* ===================================================================== *)

Module Script.
Import JsText.

#[local] Unset Elimination Schemes.
Inductive Position : Type :=
| Node (fenText : string) (over : bool) (next : list (string * Position)).
#[local] Set Elimination Schemes.

Definition fenOf (p : Position) : string :=
  match p with Node f _ _ => f end.

Definition nextOf (p : Position) : list (string * Position) :=
  match p with Node _ _ n => n end.

Definition overOf (p : Position) : bool :=
  match p with Node _ o _ => o end.

Definition lookupMove (san : string) (p : Position) : option (Position * string) :=
  match find (fun entry => String.eqb (fst entry) san) (nextOf p) with
  | Some (m, p') => Some (p', m)
  | None => None
  end.

(** The board of a FEN text: its first field, rank 8 first. *)
Definition pieceOfChar (c : ascii) : Chess.Piece :=
  {| Chess.ptype := String (lowerChar c) "";
     Chess.color := if isUpper c then "w" else "b" |}.

Fixpoint boardRows (placement : string) (row : list (option Chess.Piece))
    : list (list (option Chess.Piece)) :=
  match placement with
  | "" => [row]
  | String c more =>
      if Ascii.eqb c "/" then row :: boardRows more []
      else if Ascii.eqb c " " then [row]
      else if isDigit c
      then boardRows more (row ++ repeat None (code c - 48))
      else boardRows more (row ++ [Some (pieceOfChar c)])
  end.

#[global] Instance engine : Chess.Engine Position := {
  Chess.fen := fenOf;
  Chess.moves := fun p => map fst (nextOf p);
  Chess.move := fun p san => lookupMove san p;
  Chess.board := fun p => boardRows (fenOf p) [];
  Chess.game_over := overOf
}.

(** A king-and-pawn ending.  White: Ka1, a2; Black: Kh8, h7.  The line
    1. a4 h5 is followed; every other legal move ends the script. *)
Definition leaf (fenText : string) : Position := Node fenText false [].

Definition afterA4H5 : Position :=
  Node "7k/8/8/7p/P7/8/8/K7 w - h6 0 2" false
    [ ("a5", leaf "7k/8/8/P6p/8/8/8/K7 b - - 0 2");
      ("Ka2", leaf "7k/8/8/7p/P7/8/K7/8 b - - 1 2");
      ("Kb1", leaf "7k/8/8/7p/P7/8/8/1K6 b - - 1 2");
      ("Kb2", leaf "7k/8/8/7p/P7/8/1K6/8 b - - 1 2") ].

Definition afterA4 : Position :=
  Node "7k/7p/8/8/P7/8/8/K7 b - a3 0 1" false
    [ ("h6", leaf "7k/8/7p/8/P7/8/8/K7 w - - 0 2");
      ("h5", afterA4H5);
      ("Kg8", leaf "6k1/7p/8/8/P7/8/8/K7 w - - 1 2");
      ("Kg7", leaf "8/6kp/8/8/P7/8/8/K7 w - - 1 2") ].

Definition ending : Position :=
  Node "7k/7p/8/8/8/8/P7/K7 w - - 0 1" false
    [ ("a3", leaf "7k/7p/8/8/8/P7/8/K7 b - - 0 1");
      ("a4", afterA4);
      ("Kb1", leaf "7k/7p/8/8/8/8/P7/1K6 b - - 1 1");
      ("Kb2", leaf "7k/7p/8/8/8/8/PK6/8 b - - 1 1") ].

(** A game on that ending, started, with both players set to [who]. *)
Definition start (who : Game.PlayerSettings) (retries : Z) : Game.Game :=
  {| Game.chess := ending;
     Game.gameState := {| Game.status := Game.running;
                          Game.currentPlayer := Game.white;
                          Game.moveHistory := [] |};
     Game.settings := {| Game.whitePlayer := who;
                         Game.blackPlayer := who;
                         Game.general := {| Game.maxRetries := retries;
                                            Game.moveDelay := 1000 |} |};
     Game.moveTimer := None;
     Game.retryCount := 0;
     Game.sent := [] |}.

Definition player (provider model : string) : Game.PlayerSettings :=
  {| Game.provider := provider; Game.model := model; Game.apiKey := "key";
     Game.streaming := true; Game.temperature := 0.7%float;
     Game.maxTokens := 1024; Game.customPrompt := None |}.

(** [g] with the retry counter standing at [count]. *)
Definition resumed (g : @Game.Game Position) (count : Z) : @Game.Game Position :=
  {| Game.chess := Game.chess g;
     Game.gameState := Game.gameState g;
     Game.settings := Game.settings g;
     Game.moveTimer := Game.moveTimer g;
     Game.retryCount := count;
     Game.sent := Game.sent g |}.

Definition openaiGame (retries : Z) : Game.Game :=
  start (player "openai" "gpt-4o") retries.

Definition geminiGame (retries : Z) : Game.Game :=
  start (player "gemini" "gemini-2.0-flash-exp") retries.

Definition xaiGame (retries : Z) : Game.Game :=
  start (player "xai" "grok-3-latest") retries.

End Script.

(* ===================================================================== *)
(** ** Pieces of a text *)
(* ===================================================================== *)

Module Fragments.

(** [t] is what remains of [s] after some prefix. *)
Definition suffixOf (t s : string) : Prop := exists pre, s = pre ++ t.

(** [m] occurs in [s]. *)
Definition substringOf (m s : string) : Prop :=
  exists pre post, s = pre ++ m ++ post.

End Fragments.

(* ===================================================================== *)
(** ** ai-models.js and o-models.js: reading the replies *)
(* ===================================================================== *)

Module Parsers.
Import JsText Regex Grok Models.

(** The decoded body of a chat-completions reply, as far as the parsers
    look at it. *)
Inductive chatData : Type :=
| ApiError (message : string)   (* [data.error] set; the message read from it *)
| Choices (content : string)    (* [choices[0].message?.content || ''] *)
| EmptyChoices                  (* [choices] is an empty array *)
| NoChoices.                    (* no [choices] property *)

Definition firstMove (r : regex) (text : string) : string :=
  match exec r text with
  | Some (m, _) => m
  | None => ""
  end.

(** [parseOModelResponse] *)
Definition parseOModelResponse (data : chatData) : result AiResponse :=
  match data with
  | ApiError message => Throw (Error ("API error: " ++ message))
  | Choices content =>
      Return {| ai_move := firstMove plainMoveRegex content; thinking := content |}
  | EmptyChoices | NoChoices => Return {| ai_move := ""; thinking := "" |}
  end.

(** [/\b([a-h][1-8]|[a-h]x[a-h][1-8]|[KQRBN][a-h]?[1-8]?x?[a-h][1-8]|O-O(?:-O)?)\b/] *)
Definition captureMoveRegex : regex :=
  cats [WordB;
        alts [cats [file false; rank];
              cats [file false; chr false "x"; file false; rank];
              cats [piece false; Opt (file false); Opt rank; Opt (chr false "x");
                    file false; rank];
              cats [lit false "O-O"; Opt (lit false "-O")]];
        WordB].

(** [AI_MODELS.openai.parseResponse], the branch that is not streamed.
    Reading [data.choices[0]] throws a TypeError when there is no
    [choices] property. *)
Definition openai_parseResponse (data : chatData) : result AiResponse :=
  match data with
  | ApiError _ | NoChoices =>
      Throw (Error "Cannot read properties of undefined (reading '0')")
  | EmptyChoices | Choices _ =>
      let content := match data with Choices c => c | _ => "" end in
      let move := firstMove captureMoveRegex content in
      let move :=
        if negb (truthy move) && (0 <? length (trim content))%nat
           && (length (trim content) <? 6)%nat
        then trim content else move in
      Return {| ai_move := move; thinking := content |}
  end.

(** [AI_MODELS.gemini.parseResponse]; [content] is
    [data.candidates?.[0]?.content?.parts?.[0]?.text || '']. *)
Definition gemini_parseResponse (content : string) : AiResponse :=
  {| ai_move := firstMove plainMoveRegex content; thinking := content |}.

(** [AI_MODELS.xai.parseResponse] on what the Grok module returned.  The
    branch that is not streamed calls
    [window.GrokModels.extractValidChessMove], a property grok.js never
    assigns: the call throws a TypeError. *)
Definition xai_parseResponse (moveData : grokResult) (config : Config)
    : result AiResponse :=
  if isTrue (cfg_streaming config) then
    let content := response moveData in
    let reasoningText := match reasoning moveData with Some r => r | None => "" end in
    Return {| ai_move := content;
              thinking := if truthy reasoningText
                          then content ++ nl ++ nl ++ "Reasoning: " ++ reasoningText
                          else content |}
  else
    Throw (Error "window.GrokModels.extractValidChessMove is not a function").

(** The files and ranks of a board. *)
Definition files : list ascii := list_ascii_of_string "abcdefgh".
Definition ranks : list ascii := list_ascii_of_string "12345678".

(** The pawn capture [f1 x f2 r], as in [cxd4]. *)
Definition pawnCapture (f1 f2 r : ascii) : string :=
  String f1 (String "x" (String f2 (String r ""))).

(** The three parsers on a pawn capture: OpenAI returns it, the other two
    return the empty move. *)
Definition captureParsedBy (f1 f2 r : ascii) : bool :=
  let text := pawnCapture f1 f2 r in
  match openai_parseResponse (Choices text), parseOModelResponse (Choices text) with
  | Return a, Return b =>
      String.eqb (ai_move a) text && String.eqb (ai_move b) ""
      && String.eqb (ai_move (gemini_parseResponse text)) ""
  | _, _ => false
  end.

End Parsers.

(* ===================================================================== *)
(** ** ai-models.js: the catalogue of models, and the course of a call *)
(* ===================================================================== *)

Module Catalog.
Import JsText Grok Models Parsers.

Record ModelInfo : Type := {
  id : string;
  name : string;
  maxTokensCap : Z;      (* the [maxTokens] of the entry *)
  streamable : bool      (* its [streaming] *)
}.

Definition entry (i n : string) (cap : Z) : ModelInfo :=
  {| id := i; name := n; maxTokensCap := cap; streamable := true |}.





(** The chat body of a request, if it has one. *)
Definition chatBodyOf (f : Fetch) : option ChatBody :=
  match body f with
  | ChatJson b => Some b
  | GeminiJson _ => None
  end.

(** A configuration put together from its properties. *)
Definition configOf (key model : string) (t : float) (n : Z)
    (streams : option bool) (prompt : option string) (retries : Z)
    (legal : list string) (custom : option string) : Config :=
  {| cfg_apiKey := key; cfg_model := model; cfg_temperature := t;
     cfg_maxTokens := n; cfg_streaming := streams; cfg_userPrompt := prompt;
     cfg_retryCount := retries; cfg_legalMoves := legal;
     cfg_customPrompt := custom |}.

Section Calls.
Context {Position : Type} `{Chess.Engine Position}.

(** What a call of [callAIModel] for an xAI player comes to once the
    Grok module has answered: [parseResponse] applied to its result, or
    the exception it threw. *)
Definition xaiAnswer (g : Game.Game) (reply : result grokResult)
    : result AiResponse :=
  moveData <- reply ;; xai_parseResponse moveData (Game.moveConfig g).

End Calls.

End Catalog.

(* ===================================================================== *)
(** ** settings.js and game.js: validation, the controls, the errors *)
(* ===================================================================== *)

Module Controls.
Import JsText Grok Models Game.

(** The double quote, which the messages below contain. *)
Definition dquote : string := String (ascii_of_nat 34) "".

(** The errors [validateSettings] collects for one player. *)
Definition playerErrors (label : string) (ps : PlayerSettings) : list string :=
  let noProvider := label ++ " player: AI provider must be selected" in
  let noModel := label ++ " player: AI model must be selected" in
  let noKey := label ++ " player: API key must be provided" in
  let badKey := label ++ " player: xAI keys must start with "
                ++ dquote ++ "xai-" ++ dquote in
  ((if negb (truthy (provider ps)) then [noProvider] else [])
   ++ (if negb (truthy (model ps)) then [noModel] else [])
   ++ (if negb (truthy (apiKey ps)) then [noKey]
       else if String.eqb (provider ps) "xai" && negb (startsWith "xai-" (apiKey ps))
       then [badKey]
       else []))%list.

(** [Settings.validateSettings]: the [valid] flag and the [errors]. *)
Definition validateSettings (s : Settings) : bool * list string :=
  let errors := (playerErrors "White" (whitePlayer s)
                 ++ playerErrors "Black" (blackPlayer s))%list in
  ((List.length errors =? 0)%nat, errors).

(** What [validateSettings] asks of a player. *)
Definition playerReady (ps : PlayerSettings) : Prop :=
  provider ps <> "" /\ model ps <> "" /\ apiKey ps <> "" /\
  (provider ps = "xai" -> startsWith "xai-" (apiKey ps) = true).




Section Buttons.
Context {Position : Type} `{Chess.Engine Position}.

(** What [chess.reset()] leaves: the starting position. *)
Variable startPosition : Position.

(** [startGame].  The second component is the outcome of the call of
    [makeNextMove], when there is one. *)
Definition startGame (g : Game) (answer : result AiResponse)
    : Game * option Outcome :=
  if negb (fst (validateSettings (settings g))) then (g, None)
  else
    match status (gameState g) with
    | idle | paused =>
        let g1 := setStatus g running in
        match moveHistory (gameState g1) with
        | [] => let (g2, o) := makeNextMove g1 answer in (g2, Some o)
        | _ :: _ => (g1, None)
        end
    | _ => (g, None)
    end.

(** [pauseGame] *)
Definition pauseGame (g : @Game Position) : @Game Position :=
  match status (gameState g) with
  | running =>
      {| chess := chess g;
         gameState := {| status := paused;
                         currentPlayer := currentPlayer (gameState g);
                         moveHistory := moveHistory (gameState g) |};
         settings := settings g;
         moveTimer := None;
         retryCount := retryCount g;
         sent := sent g |}
  | _ => g
  end.



(** The entries of [describeBoardState] before they are joined. *)
Definition boardEntries (position : Position) : list string :=
  flat_map (fun row =>
    flat_map (fun col =>
      match nth col (nth row (Chess.board position) []) None with
      | Some piece =>
          [getPieceName (Chess.ptype piece) (Chess.color piece)
           ++ " at " ++ squareName row col]
      | None => []
      end)
      (seq 0 8))
    (seq 0 8).

End Buttons.

End Controls.

(* ===================================================================== *)
(** ** history.js: the saved games and their replay *)
(* ===================================================================== *)

Module History.
Import JsText Models.

(** A saved game, as far as the history reads it; a move is given by its
    [san]. *)
Record SavedGame : Type := {
  game_id : string;
  game_moves : list string;
  game_result : option string;
  game_winner : option string
}.

(** [addGame]: the list of games after the call. *)
Definition addGame (games : list SavedGame) (game : SavedGame) : list SavedGame :=
  let games' := game :: games in
  if (20 <? List.length games')%nat then firstn 20 games' else games'.

(** [removeGame] *)
Definition removeGame (games : list SavedGame) (gameId : string) : list SavedGame :=
  filter (fun game => negb (String.eqb (game_id game) gameId)) games.

(** [games.find(g => g.id === gameId)] *)
Definition findGame (games : list SavedGame) (gameId : string) : option SavedGame :=
  find (fun g => String.eqb (game_id g) gameId) games.

Section Replay.
Context {Position : Type} `{Chess.Engine Position}.

(** What [chess.reset()] leaves: the starting position. *)
Variable startPosition : Position.

(** The replay state: the game loaded, the position of the replay engine
    and the index of the move shown (-1 before the first move). *)
Record ReplayState : Type := {
  game : option SavedGame;
  position : Position;
  currentMoveIndex : Z
}.


(** [loadGameForReplay] *)
Definition loadGameForReplay (games : list SavedGame) (st : ReplayState)
    (gameId : string) : ReplayState :=
  match findGame games gameId with
  | None => st
  | Some g => {| game := Some g; position := startPosition; currentMoveIndex := -1 |}
  end.




End Replay.

End History.

(* ===================================================================== *)
(** ** chessboard.js: squares and the drawing of a position *)
(* ===================================================================== *)

Module Chessboard.
Import JsText Models.

(** [_indexToPosition]: [String.fromCharCode(97 + col)] followed by
    [row + 1] in decimal (for a column whose letter is an 8-bit
    character). *)
Definition _indexToPosition (row col : Z) : string :=
  String (ascii_of_nat (Z.to_nat (97 + col)))
         (NilZero.string_of_int (Z.to_int (row + 1))).

(** [parseInt(c, 10)] of one character: [None] is [NaN]. *)
Definition parseDigit (c : ascii) : option Z :=
  if isDigit c then Some (Z.of_nat (code c) - 48)%Z else None.

(** [_positionToIndex]; a component is [None] when it is [NaN]. *)
Record Index : Type := { row : option Z; col : option Z }.

Definition _positionToIndex (position : string) : Index :=
  {| row := match position with
            | String _ (String r _) =>
                match parseDigit r with Some d => Some (d - 1)%Z | None => None end
            | _ => None
            end;
     col := match position with
            | String f _ => Some (Z.of_nat (code f) - 97)%Z
            | "" => None
            end |}.

(** The keys of [pieceMapping] in [addPiece]. *)
Definition isPieceLetter (c : ascii) : bool :=
  existsb (Ascii.eqb c) (list_ascii_of_string "prnbqkPRNBQK").

(** [fen.split(' ')[0]] *)
Fixpoint firstField (fen : string) : string :=
  match fen with
  | "" => ""
  | String c more => if Ascii.eqb c " " then "" else String c (firstField more)
  end.

(** The loop of [setPosition] over the placement field: the pieces
    added, oldest first, each with its square.  [addPiece] ignores a
    letter that is no piece, and throws a TypeError when a piece falls
    outside the 8 by 8 grid of squares. *)
Fixpoint place (placement : string) (r c : Z) (added : list (string * ascii))
    : result (list (string * ascii)) :=
  match placement with
  | "" => Return added
  | String ch more =>
      if Ascii.eqb ch "/" then place more (r - 1) 0 added
      else if between 49 56 ch then place more r (c + (Z.of_nat (code ch) - 48)) added
      else if isPieceLetter ch then
        if (0 <=? r)%Z && (r <? 8)%Z && (0 <=? c)%Z && (c <? 8)%Z
        then place more r (c + 1) (added ++ [(_indexToPosition r c, ch)])
        else Throw (Error "Cannot read properties of undefined")
      else place more r (c + 1) added
  end.

(** [setPosition] *)
Definition setPosition (fen : string) : result (list (string * ascii)) :=
  place (firstField fen) 7 0 [].

(** The piece letters of a text, in order. *)
Fixpoint pieceLetters (s : string) : list ascii :=
  match s with
  | "" => []
  | String c more =>
      if isPieceLetter c then c :: pieceLetters more else pieceLetters more
  end.

(** A square of the 8 by 8 grid. *)
Definition onGrid (entry : string * ascii) : Prop :=
  exists r c, (0 <= r < 8)%Z /\ (0 <= c < 8)%Z /\ fst entry = _indexToPosition r c.

End Chessboard.

(* ===================================================================== *)
(** * Properties *)
(* ===================================================================== *)

(** ** The move extractor *)

Module ExtractorFacts.
Import JsText Regex Grok.

Lemma falsy_empty (s : string) : truthy s = false -> s = "".
Proof. destruct s; [reflexivity | discriminate]. Qed.





(** C8 (as amended). When the error guard does not fire and the scan
    finds no candidate at all, the extractor returns the first line of
    the trimmed response if that line is non-empty and shorter than ten
    characters, and otherwise the whole trimmed response. *)
Theorem C8_fallback_first_line_or_whole_text
    (responseText reasoningText : string) (legalMoves : option (list string)) :
  errorDetected (trim responseText) reasoningText = false ->
  potentialMoves (trim responseText) reasoningText = [] ->
  let firstLine := trim (firstLineOf (trim responseText)) in
  extractValidChessMove responseText reasoningText legalMoves =
    if (0 <? length firstLine)%nat && (length firstLine <? 10)%nat
    then firstLine
    else trim responseText.
Proof.
  intros Hguard Hnone firstLine. subst firstLine.
  unfold extractValidChessMove.
  destruct (negb (truthy responseText) && negb (truthy reasoningText)) eqn:Hempty.
  - apply andb_true_iff in Hempty as [H1 _].
    apply negb_true_iff in H1. apply falsy_empty in H1. subst. reflexivity.
  - rewrite Hguard, Hnone.
    destruct legalMoves as [[| l0 legal] |]; reflexivity.
Qed.

Lemma C8_witness :
  extractValidChessMove "hello" "" None = "hello" /\
  extractValidChessMove "Hello there, friend" "" (Some ["e4"]) = "Hello there, friend".
Proof.
  split.
  - rewrite (C8_fallback_first_line_or_whole_text "hello" "" None);
      reflexivity.
  - rewrite (C8_fallback_first_line_or_whole_text "Hello there, friend" ""
               (Some ["e4"])); reflexivity.
Defined.

(** C8 as stated fails: with no error phrase, no candidate and a first
    line of nineteen characters, the extractor does not return the empty
    candidate. *)
Lemma C8_counterexample :
  let text := "Hello there, friend" in
  errorDetected (trim text) "" = false /\
  potentialMoves (trim text) "" = [] /\
  (length (trim (firstLineOf (trim text))) <? 10)%nat = false /\
  extractValidChessMove text "" None <> "".
Proof. repeat split; try reflexivity. discriminate. Qed.

(** *** The error guard *)

Lemma isSpace_lowerChar (c : ascii) : isSpace (lowerChar c) = isSpace c.
Proof. destruct c as [[] [] [] [] [] [] [] []]; reflexivity. Qed.

(** A literal under the [i] flag matches any text that lower-cases to it. *)
Lemma lit_ci_runs (mid post : string) (b : option ascii) (cap : option string) :
  exists k, runs (lit true (toLowerCase mid)) (Cursor b (mid ++ post) cap)
            = [k].
Proof.
  revert b. induction mid as [| m mid IH]; intros b; simpl.
  - eexists; reflexivity.
  - unfold ci. rewrite !Ascii.eqb_refl, orb_true_r. simpl.
    destruct (IH (Some m)) as [k Hk]. rewrite Hk. simpl.
    eexists; reflexivity.
Qed.

Lemma searchFrom_found (r : regex) (s : string) :
  (forall b, matchHere r (Cursor b s None) <> None) ->
  forall pre b, searchFrom r b (pre ++ s) <> None.
Proof.
  intros Hs pre. induction pre as [| c pre IH]; intros b.
  - simpl. specialize (Hs b).
    destruct s; simpl; destruct (matchHere r _); congruence.
  - simpl. destruct (matchHere r _); [discriminate | apply IH].
Qed.

Lemma test_lit_ci (phrase text : string) :
  containsPhrase phrase text -> test (lit true phrase) text = true.
Proof.
  intros [pre [mid [post [-> <-]]]]. unfold test, exec.
  destruct (searchFrom _ None _) eqn:E; [reflexivity | exfalso].
  revert E. apply searchFrom_found. intros b. unfold matchHere.
  destruct (lit_ci_runs mid post b None) as [k ->]. discriminate.
Qed.

(** Trimming keeps any occurrence whose two ends are not white space. *)
Lemma trimStart_keeps (pre rest : string) (c : ascii) :
  isSpace c = false ->
  exists pre', trimStart (pre ++ String c rest) = pre' ++ String c rest.
Proof.
  intros Hc. induction pre as [| a pre IH]; simpl.
  - rewrite Hc. now exists "".
  - destruct (isSpace a); [exact IH |].
    now exists (String a pre).
Qed.

Lemma trimEnd_keeps (body post : string) (z : ascii) :
  isSpace z = false ->
  exists post', trimEnd (body ++ String z post) = body ++ String z post'.
Proof.
  intros Hz. induction body as [| a body IH]; simpl.
  - rewrite Hz. exists (trimEnd post). now destruct (trimEnd post).
  - destruct IH as [post' ->]. exists post'.
    now destruct body.
Qed.

Lemma lastSolid_split (s : string) :
  lastSolid s = true ->
  exists body z, s = body ++ String z "" /\ isSpace z = false.
Proof.
  induction s as [| c s IH]; [discriminate |].
  destruct s as [| d s'].
  - simpl. intros H. exists "", c. split; [reflexivity |].
    now apply negb_true_iff.
  - intros H. destruct (IH H) as [body [z [E Hz]]].
    exists (String c body), z. split; [| exact Hz].
    simpl. now rewrite <- E.
Qed.

Lemma firstSolid_lower (s : string) :
  firstSolid (toLowerCase s) = firstSolid s.
Proof. destruct s; simpl; [| rewrite isSpace_lowerChar]; reflexivity. Qed.

Lemma lastSolid_lower (s : string) :
  lastSolid (toLowerCase s) = lastSolid s.
Proof.
  induction s as [| c s IH]; [reflexivity |].
  destruct s as [| d s']; simpl in *.
  - now rewrite isSpace_lowerChar.
  - exact IH.
Qed.

Lemma append_assoc (a b c : string) : (a ++ b) ++ c = a ++ (b ++ c).
Proof. induction a; simpl; congruence. Qed.

Lemma containsPhrase_trim (phrase text : string) :
  firstSolid phrase = true -> lastSolid phrase = true ->
  containsPhrase phrase text -> containsPhrase phrase (trim text).
Proof.
  intros Hf Hl [pre [mid [post [-> E]]]]. subst phrase.
  rewrite firstSolid_lower in Hf. rewrite lastSolid_lower in Hl.
  destruct (lastSolid_split mid Hl) as [body [z [Emid Hz]]].
  destruct mid as [| m mid']; [discriminate |].
  simpl in Hf. apply negb_true_iff in Hf.
  unfold trim. simpl.
  destruct (trimStart_keeps pre (mid' ++ post) m Hf) as [pre' ->].
  assert (Eb : pre' ++ String m (mid' ++ post)
               = (pre' ++ body) ++ String z post).
  { change (String m (mid' ++ post)) with (String m mid' ++ post).
    rewrite Emid, !append_assoc. reflexivity. }
  rewrite Eb.
  destruct (trimEnd_keeps (pre' ++ body) post z Hz) as [post' ->].
  exists pre', (String m mid'), post'. split; [| reflexivity].
  rewrite Emid, !append_assoc. reflexivity.
Qed.

Lemma errorPhrases_solid (phrase : string) :
  In phrase errorPhrases ->
  firstSolid phrase = true /\ lastSolid phrase = true.
Proof.
  unfold errorPhrases. simpl.
  intros H. repeat (destruct H as [<- | H]; [split; reflexivity |]).
  destruct H.
Qed.

Lemma errorDetected_phrase (phrase cleaned reasoning : string) :
  In phrase errorPhrases ->
  containsPhrase phrase cleaned \/ containsPhrase phrase reasoning ->
  errorDetected cleaned reasoning = true.
Proof.
  intros Hin H. unfold errorDetected. apply existsb_exists.
  exists (lit true phrase). split; [now apply in_map |].
  destruct H as [H | H].
  - now rewrite (test_lit_ci _ _ H).
  - rewrite (test_lit_ci _ _ H), andb_true_r, orb_true_iff. right.
    destruct H as [pre [mid [post [-> E]]]].
    destruct (errorPhrases_solid _ Hin) as [Hf _]. subst phrase.
    destruct mid; [discriminate |]. now destruct pre.
Qed.

(** C3. If the response text or the reasoning text contains one of the
    configured error phrases, in any letter case, the extractor returns
    the empty candidate, whatever else the texts contain and whatever
    legal moves were supplied. *)
Theorem C3_error_phrase_yields_empty
    (phrase responseText reasoningText : string)
    (legalMoves : option (list string)) :
  In phrase errorPhrases ->
  containsPhrase phrase responseText \/ containsPhrase phrase reasoningText ->
  extractValidChessMove responseText reasoningText legalMoves = "".
Proof.
  intros Hin H. unfold extractValidChessMove.
  destruct (negb (truthy responseText) && negb (truthy reasoningText));
    [reflexivity |].
  rewrite (errorDetected_phrase phrase); [reflexivity | assumption |].
  destruct H as [H | H]; [left | now right].
  destruct (errorPhrases_solid _ Hin). now apply containsPhrase_trim.
Qed.

(** The theorem at scenario C, and at a response that also names a legal
    move. *)
Lemma C3_witness :
  extractValidChessMove "Error: invalid API key" "" (Some ["e4"]) = "" /\
  extractValidChessMove "I cannot decide, maybe Nf3" "" (Some ["Nf3"]) = "".
Proof.
  split.
  - apply (C3_error_phrase_yields_empty "api key").
    + unfold errorPhrases. simpl. tauto.
    + left. exists "Error: invalid ", "API key", "". split; reflexivity.
  - apply (C3_error_phrase_yields_empty "cannot").
    + unfold errorPhrases. simpl. tauto.
    + left. exists "I ", "cannot", " decide, maybe Nf3". split; reflexivity.
Defined.

End ExtractorFacts.


(** ** The streaming readers *)

Module StreamFacts.
Import JsText Regex Grok Models.

Lemma append_empty_r (s : string) : s ++ "" = s.
Proof. induction s; simpl; congruence. Qed.

Lemma extends_refl (s : string) : extends s s.
Proof. exists "". now rewrite append_empty_r. Qed.

Lemma extends_append (s t : string) : extends s (s ++ t).
Proof. now exists t. Qed.

Lemma extends_trans (a b c : string) : extends a b -> extends b c -> extends a c.
Proof.
  intros [x ->] [y ->]. exists (x ++ y).
  induction a; simpl; congruence.
Qed.

Lemma last_cons_default {A} (x : A) (l : list A) (d d' : A) :
  last (x :: l) d = last (x :: l) d'.
Proof.
  revert x. induction l as [| y l IH]; intros x; [reflexivity |].
  change (last (y :: l) d = last (y :: l) d'). apply IH.
Qed.

(** Appending a text that extends the last one keeps the chain. *)
Lemma extending_snoc (texts : list string) (prev t : string) :
  extending prev texts -> extends (last texts prev) t ->
  extending prev (texts ++ [t]).
Proof.
  revert prev. induction texts as [| x texts IH]; intros prev Hc Hl.
  - simpl in *. auto.
  - destruct Hc as [Hx Hc]. split; [exact Hx |].
    apply IH; [exact Hc |].
    destruct texts as [| y texts]; [exact Hl |].
    rewrite (last_cons_default y texts x prev). exact Hl.
Qed.

Lemma cumulative_push (st : streamState) (full : string) (r : option string)
    (fullR : string) :
  cumulative st -> extends (fullContent st) full ->
  cumulative {| fullContent := full; fullReasoning := fullR;
                delivered := delivered st
                             ++ [{| u_content := full; u_reasoning := r |}] |}.
Proof.
  intros [Hc Hl] He. unfold cumulative. simpl.
  rewrite map_app. simpl. split.
  - apply extending_snoc; [exact Hc | now rewrite Hl].
  - apply last_last.
Qed.

Lemma onRecord_cumulative (model : string) (st : streamState) (r : sseRecord) :
  cumulative st -> cumulative (onRecord model st r).
Proof.
  intros Hst. destruct r as [content reasoning |]; [| exact Hst].
  unfold onRecord.
  set (st1 := if truthy content then _ else st).
  assert (H1 : cumulative st1).
  { subst st1. destruct (truthy content); [| exact Hst].
    apply cumulative_push; [exact Hst | apply extends_append]. }
  destruct (String.eqb model "grok-3-mini-beta" && truthy reasoning);
    [| exact H1].
  apply cumulative_push; [exact H1 | apply extends_refl].
Qed.

Lemma readStream_cumulative (model : string) (records : list sseRecord) :
  cumulative (readStream model records).
Proof.
  unfold readStream.
  assert (H0 : cumulative streamStart) by (split; [exact I | reflexivity]).
  revert H0. generalize streamStart.
  induction records as [| r records IH]; intros st Hst; simpl.
  - exact Hst.
  - apply IH. now apply onRecord_cumulative.
Qed.

Lemma chunk_extends (chunk : list sseRecord) (acc : string) :
  extends acc
    (fold_left (fun acc r =>
                  match r with
                  | Delta content _ => if truthy content then acc ++ content else acc
                  | Skipped => acc
                  end) chunk acc).
Proof.
  revert acc. induction chunk as [| r chunk IH]; intros acc; simpl.
  - apply extends_refl.
  - eapply extends_trans; [| apply IH].
    destruct r as [content ? |]; [| apply extends_refl].
    destruct (truthy content); [apply extends_append | apply extends_refl].
Qed.

Lemma onChunk_cumulative (st : string * list string) (chunk : list sseRecord) :
  cumulativeSeen st -> cumulativeSeen (onChunk true st chunk).
Proof.
  intros [Hc Hl]. unfold cumulativeSeen, onChunk. simpl. split.
  - apply extending_snoc; [exact Hc |]. rewrite Hl. apply chunk_extends.
  - apply last_last.
Qed.

Lemma parseStream_cumulative (chunks : list (list sseRecord)) :
  cumulativeSeen (fold_left (onChunk true) chunks ("", [])).
Proof.
  assert (H0 : cumulativeSeen ("", [])) by (split; [exact I | reflexivity]).
  revert H0. generalize ("", @nil string).
  induction chunks as [| c chunks IH]; intros st Hst; simpl.
  - exact Hst.
  - apply IH. now apply onChunk_cumulative.
Qed.

(** C6 (as amended). In both streaming readers every update handed to
    the observer carries the text accumulated so far, so the text of
    each update extends the text of the update before it.  The value
    returned at the end is computed from the text of the last update:
    [streamGrokResponse] returns that text itself outside a chess
    conversation and the move extracted from it in a chess conversation;
    the OpenAI reader returns it trimmed. *)
Theorem C6_updates_cumulative_final_derived
    (model : string) (messages : list Message) (records : list sseRecord)
    (chunks : list (list sseRecord)) :
  let updates := fst (streamGrokResponse model messages records) in
  let result := snd (streamGrokResponse model messages records) in
  let texts := map u_content updates in
  let reasoningText := match reasoning result with Some r => r | None => "" end in
  let seen := fst (openai_parseStream true chunks) in
  let answer := snd (openai_parseStream true chunks) in
  extending "" texts /\
  response result =
    (if checkIfChessContext messages
     then extractValidChessMove (last texts "") reasoningText None
     else last texts "") /\
  extending "" seen /\
  thinking answer = trim (last seen "").
Proof.
  cbv zeta.
  destruct (readStream_cumulative model records) as [Hc Hl].
  destruct (parseStream_cumulative chunks) as [Hs Hk].
  unfold streamGrokResponse, openai_parseStream.
  destruct (String.eqb model "grok-3-mini-beta"); simpl;
    rewrite Hl, Hk; repeat split; assumption.
Qed.

(** C6 as stated fails: in a chess conversation the text returned is the
    extracted move, not the text of the last update. *)
Lemma C6_counterexample :
  let messages := [msg "system" xaiSystemPrompt; msg "user" "Your move."] in
  let run := streamGrokResponse "grok-3-latest" messages
               [Delta "I play " ""; Delta "Nf3" ""; Skipped] in
  map u_content (fst run) = ["I play "; "I play Nf3"] /\
  response (snd run) = "Nf3" /\
  response (snd run) <> last (map u_content (fst run)) "".
Proof. repeat split; try reflexivity. discriminate. Qed.

End StreamFacts.

(** ** The game loop and its retries *)

Module GameFacts.
Import JsText Grok Models Game.

Section Retry.
Context {Position : Type} `{Chess.Engine Position}.









(** C9. For the xAI adapter, a configuration whose retry count is
    positive makes [requestFormat] read the undeclared [cleanOptions]: the
    call throws a ReferenceError and [callAIModel] hands nothing to
    [fetch].  So a retry of an xAI player ends in the [catch] block of
    [makeNextMove]: the game is paused and no request is added. *)
Theorem C9_xai_retry_throws_before_request
    (boardState : Position) (moveHistory : list string) (config : Config) :
  (cfg_retryCount config > 0)%Z ->
  xai_requestFormat boardState moveHistory config
    = Throw (ReferenceError "cleanOptions") /\
  callAIModel "xai" boardState moveHistory config
    = Throw (ReferenceError "cleanOptions") /\
  forall (g : Game) (answer : result AiResponse),
    status (gameState g) = running ->
    provider (getPlayerSettings (settings g) (currentPlayer (gameState g))) = "xai" ->
    (retryCount g > 0)%Z ->
    makeNextMove g answer
      = (setStatus g paused, Failed (ReferenceError "cleanOptions")) /\
    sent (fst (makeNextMove g answer)) = sent g /\
    status (gameState (fst (makeNextMove g answer))) = paused.
Proof.
  intros Hretry.
  assert (Hx : forall b m c, (cfg_retryCount c > 0)%Z ->
                 xai_requestFormat b m c = Throw (ReferenceError "cleanOptions")).
  { intros b m c Hc. unfold xai_requestFormat.
    destruct (Z.gtb_spec (cfg_retryCount c) 0); [reflexivity | lia]. }
  split; [now apply Hx |].
  split.
  { unfold callAIModel. simpl. now rewrite Hx. }
  intros g answer Hrun Hprov Hrc.
  assert (Hm : makeNextMove g answer
               = (setStatus g paused, Failed (ReferenceError "cleanOptions"))).
  { unfold makeNextMove, moveRequest. rewrite Hrun, Hprov.
    unfold callAIModel. simpl. now rewrite Hx. }
  rewrite Hm. auto.
Qed.

(** C10. The request of a move does not depend on the temperature, the
    token limit or the streaming switch of either player: the
    orchestrator reads the three from the general settings, which hold
    none of them, so the configuration always carries temperature 0.7,
    token limit 2048 and no streaming flag, and every request that is
    sent carries 0.7 (where it carries a temperature), 2048 and asks for
    no stream. *)
Theorem C10_request_ignores_player_tuning
    (g : Game) (tw : float) (nw : Z) (sw : bool) (tb : float) (nb : Z) (sb : bool) :
  moveConfig (retune g tw nw sw tb nb sb) = moveConfig g /\
  moveRequest (retune g tw nw sw tb nb sb) = moveRequest g /\
  cfg_temperature (moveConfig g) = 0.7%float /\
  cfg_maxTokens (moveConfig g) = 2048%Z /\
  cfg_streaming (moveConfig g) = None /\
  forall request, moveRequest g = Return request ->
    (sentTemperature request = None \/
     sentTemperature request = Some 0.7%float) /\
    sentTokenLimit request = Some 2048%Z /\
    sentStream request = false.
Proof.
  assert (Hc : moveConfig (retune g tw nw sw tb nb sb) = moveConfig g).
  { unfold moveConfig, retune. simpl.
    destruct (currentPlayer (gameState g)); reflexivity. }
  split; [exact Hc |]. split.
  { unfold moveRequest. rewrite Hc. unfold retune. simpl.
    destruct (currentPlayer (gameState g)); reflexivity. }
  repeat (split; [reflexivity |]).
  intros request. unfold moveRequest, callAIModel.
  set (ps := getPlayerSettings (settings g) (currentPlayer (gameState g))).
  destruct (String.eqb (provider ps) "openai") eqn:Ho;
  destruct (String.eqb (provider ps) "xai") eqn:Hx;
  destruct (String.eqb (provider ps) "gemini") eqn:Hg; simpl;
    try discriminate;
    try (destruct (isOSeriesModel _) eqn:Hos; simpl);
    try (intros [= <-]; unfold sentTemperature, sentTokenLimit, sentStream; simpl;
         repeat match goal with
                | |- context [if ?c then _ else _] => destruct c
                end; auto).
  (* the xAI route *)
  all: unfold xai_requestFormat; simpl;
       destruct (retryCount g >? 0)%Z; simpl; try discriminate;
       unfold sendGrokRequest;
       repeat match goal with
              | |- context [if ?c then _ else _] => destruct c; simpl
              end; try discriminate;
       intros [= <-]; auto.
Qed.

End Retry.

(** *** Runs on the scripted king-and-pawn ending *)


(** An xAI player met with the counter at one. *)
Lemma C9_witness :
  let g := Script.resumed (Script.xaiGame 3) 1 in
  makeNextMove g (answerMove "a4")
    = (setStatus g paused, Failed (ReferenceError "cleanOptions")) /\
  sent (fst (makeNextMove g (answerMove "a4"))) = sent g /\
  status (gameState (fst (makeNextMove g (answerMove "a4")))) = paused.
Proof.
  intros g.
  destruct (C9_xai_retry_throws_before_request
              (chess g) (moveHistory (gameState g)) (moveConfig g))
    as [_ [_ Hgame]].
  - reflexivity.
  - apply Hgame; reflexivity.
Defined.

Lemma C10_witness :
  let g := Script.openaiGame 3 in
  moveRequest (retune g 0.2%float 64 true 1.0%float 4096 false) = moveRequest g /\
  exists request,
    moveRequest g = Return request /\
    sentTemperature request = Some 0.7%float /\
    sentTokenLimit request = Some 2048%Z /\
    sentStream request = false.
Proof.
  intros g.
  destruct (C10_request_ignores_player_tuning g 0.2%float 64 true 1.0%float 4096 false)
    as [_ [Hsame [_ [_ [_ Hsent]]]]].
  split; [exact Hsame |].
  eexists. split; [reflexivity |].
  split; [reflexivity |].
  now destruct (Hsent _ eq_refl) as [_ [Htok Hstream]].
Defined.

(** C4, on the code.  White is an OpenAI player with temperature 0.7 and
    token limit 1024; three answers in a row are rejected, the bound being
    five.  The settings object of the player is escalated (temperature
    to 1.0, token limit to 2024), but the four requests of the ply all
    carry temperature 0.7 and token limit 2048: the third and the fourth
    request are not escalated. *)
Theorem C4_requests_not_escalated :
  let answers := [answerMove "e5"; answerMove "Qh5"; answerMove "Ka3"] in
  let g := fst (resolvePly answers (Script.openaiGame 5)) in
  retryCount g = 3%Z /\
  temperature (whitePlayer (settings g)) = 1.0%float /\
  maxTokens (whitePlayer (settings g)) = 2024%Z /\
  map sentTemperature (sent g) = [Some 0.7; Some 0.7; Some 0.7]%float /\
  map sentTokenLimit (sent g) = [Some 2048; Some 2048; Some 2048]%Z /\
  exists fourth,
    moveRequest g = Return fourth /\
    sentTemperature fourth = Some 0.7%float /\
    sentTokenLimit fourth = Some 2048%Z.
Proof.
  cbv zeta. repeat (split; [reflexivity |]).
  eexists. repeat split; reflexivity.
Qed.

(** C5, on the code.  White's first move is rejected twice and then
    accepted; Black moves; it is White's turn again.  The prompt written
    for the retry, the escalated temperature and the escalated token
    limit are still in White's settings, and the request of White's new
    ply is that stale prompt, which describes the position of two plies
    ago. *)
Theorem C5_retry_state_outlives_ply :
  let g1 := fst (resolvePly [answerMove "e5"; answerMove "Qh5"; answerMove "a4"]
                            (Script.openaiGame 5)) in
  let g2 := fst (resolvePly [answerMove "h5"] g1) in
  let stale := customPrompt (whitePlayer (settings g2)) in
  snd (resolvePly [answerMove "e5"; answerMove "Qh5"; answerMove "a4"] (Script.openaiGame 5))
    = Ended (Accepted "a4") /\
  snd (resolvePly [answerMove "h5"] g1) = Ended (Accepted "h5") /\
  currentPlayer (gameState g2) = white /\
  retryCount g2 = 0%Z /\
  Chess.fen (chess g2) = "7k/8/8/7p/P7/8/8/K7 w - h6 0 2" /\
  temperature (whitePlayer (settings g2)) = 1.0%float /\
  maxTokens (whitePlayer (settings g2)) = 1524%Z /\
  customPrompt (whitePlayer (settings (Script.openaiGame 5))) = None /\
  exists prompt request,
    stale = Some prompt /\
    moveRequest g2 = Return request /\
    userPromptOf request = prompt /\
    includes "Current board state (FEN): 7k/7p/8/8/8/8/P7/K7 w - - 0 1" prompt = true /\
    includes "Previous invalid move: Qh5" prompt = true /\
    includes (Chess.fen (chess g2)) prompt = false.
Proof.
  cbv zeta. repeat (split; [reflexivity |]).
  eexists. eexists. repeat split; reflexivity.
Qed.

(** C7, on the code.  After a rejected move the settings hold a prompt
    with the legal moves and the pieces of the board.  The OpenAI adapter
    sends it; the Gemini adapter sends its standard prompt again, with
    neither the legal moves nor the pieces; the xAI adapter, handed the
    same retry configuration, builds no request at all. *)
Theorem C7_retry_prompt_by_adapter :
  let legal := "Legal moves: a3, a4, Kb1, Kb2" in
  let pieces := "Piece positions: Black king at h8, Black pawn at h7, White pawn at a2, White king at a1" in
  let retry (g : Game) := fst (makeNextMove g (answerMove "e5")) in
  let enriched (g : Game) :=
    snd (makeNextMove g (answerMove "e5")) = RetryScheduled /\
    exists prompt,
      customPrompt (whitePlayer (settings (retry g))) = Some prompt /\
      includes legal prompt = true /\ includes pieces prompt = true in
  enriched (Script.openaiGame 3) /\ enriched (Script.geminiGame 3) /\
  (exists request,
     moveRequest (retry (Script.openaiGame 3)) = Return request /\
     includes legal (userPromptOf request) = true /\
     includes pieces (userPromptOf request) = true) /\
  (exists first second,
     moveRequest (Script.geminiGame 3) = Return first /\
     moveRequest (retry (Script.geminiGame 3)) = Return second /\
     body second = body first /\
     includes legal (userPromptOf second) = false /\
     includes pieces (userPromptOf second) = false) /\
  callAIModel "xai" (chess (retry (Script.geminiGame 3))) []
              (moveConfig (retry (Script.geminiGame 3)))
    = Throw (ReferenceError "cleanOptions").
Proof.
  cbv zeta.
  do 2 (split; [split; [reflexivity |]; eexists; repeat split; reflexivity |]).
  split. { eexists. repeat split; reflexivity. }
  split. { eexists. eexists. repeat split; reflexivity. }
  reflexivity.
Qed.

End GameFacts.

(** ** The scenarios of the specification *)

Module Scenarios.
Import JsText Grok Models Game.

Example scenario_A : extractValidChessMove "e4" "" (Some []) = "e4".
Proof. reflexivity. Qed.

Example scenario_B :
  extractValidChessMove
    "I think the best move is Nf3 because it develops quickly." ""
    (Some ["Nf3"; "e4"; "d4"]) = "Nf3".
Proof. reflexivity. Qed.

Example scenario_C :
  extractValidChessMove "Error: invalid API key" "" (Some ["e4"]) = "" /\
  extractValidChessMove "Error: invalid API key" "" None = "".
Proof. split; reflexivity. Qed.

Example scenario_D :
  let answers := [answerMove "e5"; answerMove "e5"; answerMove "e5"] in
  snd (makeNextMove (Script.geminiGame 3) (answerMove "e5")) = RetryScheduled /\
  snd (resolvePly answers (Script.geminiGame 3)) = Ended (Exhausted 3).
Proof. split; reflexivity. Qed.

Example scenario_E :
  let run := streamGrokResponse "grok-3-latest" [msg "user" "Your chess move?"]
               [Delta "N" ""; Delta "f" ""; Delta "3" ""; Skipped] in
  map u_content (fst run) = ["N"; "Nf"; "Nf3"] /\ response (snd run) = "Nf3".
Proof. split; reflexivity. Qed.

End Scenarios.

(** ** What the matcher returns is part of its input *)

Module RegexFacts.
Import JsText Regex Fragments.

Lemma app_assoc_s (a b c : string) : (a ++ b) ++ c = a ++ (b ++ c).
Proof. induction a; simpl; congruence. Qed.

Lemma app_empty_s (s : string) : s ++ "" = s.
Proof. induction s; simpl; congruence. Qed.

Lemma length_app_s (a b : string) : length (a ++ b) = length a + length b.
Proof. induction a; simpl; congruence. Qed.

Lemma suffixOf_refl (s : string) : suffixOf s s.
Proof. now exists "". Qed.

Lemma suffixOf_trans (a b c : string) : suffixOf a b -> suffixOf b c -> suffixOf a c.
Proof. intros [x ->] [y ->]. exists (y ++ x). now rewrite app_assoc_s. Qed.

Lemma suffixOf_tail (a s : string) (c : ascii) : suffixOf a s -> suffixOf a (String c s).
Proof. intros [x ->]. now exists (String c x). Qed.

Lemma substringOf_refl (s : string) : substringOf s s.
Proof. exists "", "". now rewrite app_empty_s. Qed.

Lemma substringOf_trans (a b c : string) :
  substringOf a b -> substringOf b c -> substringOf a c.
Proof.
  intros [x [y ->]] [u [v ->]]. exists (u ++ x), (y ++ v).
  now rewrite !app_assoc_s.
Qed.

Lemma substringOf_tail (m s : string) (c : ascii) :
  substringOf m s -> substringOf m (String c s).
Proof. intros [x [y ->]]. now exists (String c x), y. Qed.

Lemma substringOf_left (m a b : string) : substringOf m a -> substringOf m (a ++ b).
Proof.
  intros [x [y ->]]. exists x, (y ++ b). now rewrite !app_assoc_s.
Qed.

Lemma substringOf_right (m a b : string) : substringOf m b -> substringOf m (a ++ b).
Proof.
  intros [x [y ->]]. exists (a ++ x), y. now rewrite !app_assoc_s.
Qed.

Lemma substringOf_empty (s : string) : substringOf "" s.
Proof. now exists "", s. Qed.

(** The text before a suffix, cut out with [take]. *)
Lemma take_prefix (pre t : string) :
  take (length (pre ++ t) - length t) (pre ++ t) = pre.
Proof.
  rewrite length_app_s.
  replace (length pre + length t - length t) with (length pre) by lia.
  induction pre as [| c pre IH]; simpl.
  - now destruct t.
  - now rewrite IH.
Qed.

Lemma take_suffix_substring (t s : string) :
  suffixOf t s -> s = take (length s - length t) s ++ t.
Proof. intros [pre ->]. now rewrite take_prefix. Qed.

Lemma star_suffix (p : ascii -> bool) (s : string) :
  forall b cap k', In k' (star p b s cap) -> suffixOf (rest k') s /\ captured k' = cap.
Proof.
  induction s as [| c s IH]; intros b cap k' Hin; simpl in Hin.
  - destruct Hin as [<- | []]. split; [apply suffixOf_refl | reflexivity].
  - destruct (p c).
    + apply in_app_or in Hin as [Hin | [<- | []]].
      * destruct (IH _ _ _ Hin). split; [now apply suffixOf_tail | assumption].
      * split; [apply suffixOf_refl | reflexivity].
    + destruct Hin as [<- | []]. split; [apply suffixOf_refl | reflexivity].
Qed.

(** Every way a pattern can match leaves a suffix of the text, and a
    capture it sets is a piece of the text it started on. *)
Lemma runs_suffix (r : regex) :
  forall k k', In k' (runs r k) ->
    suffixOf (rest k') (rest k) /\
    (captured k' = captured k \/
     exists m, captured k' = Some m /\ substringOf m (rest k)).
Proof.
  induction r as [| p | r1 IH1 r2 IH2 | r1 IH1 r2 IH2 | r1 IH1 | p | | | | r1 IH1];
    intros k k' Hin; simpl in Hin.
  - destruct Hin as [<- | []]. split; [apply suffixOf_refl | now left].
  - destruct (rest k) as [| c s'] eqn:E; [destruct Hin |].
    destruct (p c); [| destruct Hin].
    destruct Hin as [<- | []]. simpl.
    split; [now exists (String c "") | now left].
  - apply in_flat_map in Hin as [k1 [H1 H2]].
    destruct (IH1 _ _ H1) as [S1 C1]. destruct (IH2 _ _ H2) as [S2 C2].
    split; [eapply suffixOf_trans; eassumption |].
    destruct C2 as [C2 | [m [C2 Hm]]].
    + rewrite C2. exact C1.
    + right. exists m. split; [exact C2 |].
      destruct S1 as [pre E]. rewrite E. now apply substringOf_right.
  - apply in_app_or in Hin as [Hin | Hin]; [now apply IH1 | now apply IH2].
  - apply in_app_or in Hin as [Hin | [<- | []]]; [now apply IH1 |].
    split; [apply suffixOf_refl | now left].
  - destruct (star_suffix _ _ _ _ _ Hin). split; [assumption | now left].
  - destruct (xorb _ _); [| destruct Hin].
    destruct Hin as [<- | []]. split; [apply suffixOf_refl | now left].
  - destruct (before k); [destruct Hin |].
    destruct Hin as [<- | []]. split; [apply suffixOf_refl | now left].
  - destruct (rest k) eqn:E; [| destruct Hin].
    destruct Hin as [<- | []]. rewrite E. split; [apply suffixOf_refl | now left].
  - apply in_map_iff in Hin as [k1 [<- H1]]. simpl.
    destruct (IH1 _ _ H1) as [S1 _]. split; [exact S1 |].
    right. eexists. split; [reflexivity |].
    exists "", (rest k1). simpl. now apply take_suffix_substring.
Qed.

Lemma matchHere_prefix (r : regex) (k : cursor) (m : string) (cap : option string) :
  matchHere r k = Some (m, cap) ->
  (exists post, rest k = m ++ post) /\
  (cap = captured k \/ exists c, cap = Some c /\ substringOf c (rest k)).
Proof.
  unfold matchHere. destruct (runs r k) as [| k' ks] eqn:E; [discriminate |].
  intros [= <- <-].
  destruct (runs_suffix r k k') as [S C]; [rewrite E; now left |].
  split; [| exact C]. exists (rest k'). now apply take_suffix_substring.
Qed.

(** [exec]: the text matched and the capture are pieces of the input. *)
Lemma searchFrom_substring (r : regex) (s : string) :
  forall b m cap, searchFrom r b s = Some (m, cap) ->
    substringOf m s /\ forall c, cap = Some c -> substringOf c s.
Proof.
  induction s as [| a s IH]; intros b m cap H; simpl in H.
  - destruct (matchHere r (Cursor b "" None)) as [[m' cap'] |] eqn:E;
      [| discriminate].
    injection H as -> ->.
    destruct (matchHere_prefix _ _ _ _ E) as [[post Hp] C]. simpl in *.
    split; [exists "", post; exact Hp |].
    intros c ->. destruct C as [C | [c' [[= <-] Hc]]]; [discriminate | exact Hc].
  - destruct (matchHere r (Cursor b (String a s) None)) as [[m' cap'] |] eqn:E.
    + injection H as -> ->.
      destruct (matchHere_prefix _ _ _ _ E) as [[post Hp] C]. simpl in *.
      split; [exists "", post; exact Hp |].
      intros c ->. destruct C as [C | [c' [[= <-] Hc]]]; [discriminate | exact Hc].
    + destruct (IH _ _ _ H) as [Hm Hc].
      split; [now apply substringOf_tail |].
      intros c Hcap. apply substringOf_tail. now apply Hc.
Qed.

Lemma exec_substring (r : regex) (s m : string) (cap : option string) :
  exec r s = Some (m, cap) ->
  substringOf m s /\ forall c, cap = Some c -> substringOf c s.
Proof. apply searchFrom_substring. Qed.

(** [match] with the [g] flag: every text found is a piece of the input. *)
Lemma matchAllFrom_substring (r : regex) (s : string) :
  forall skip b m, In m (matchAllFrom r skip b s) -> substringOf m s.
Proof.
  induction s as [| a s IH]; intros skip b m Hin.
  - destruct skip; simpl in Hin; [| destruct Hin].
    destruct (matchHere r (Cursor b "" None)) as [[m' cap'] |] eqn:E;
      [| destruct Hin].
    destruct Hin as [<- | []].
    destruct (matchHere_prefix _ _ _ _ E) as [[post Hp] _].
    exists "", post. exact Hp.
  - destruct skip; simpl in Hin.
    + destruct (matchHere r (Cursor b (String a s) None)) as [[m' cap'] |] eqn:E.
      * destruct Hin as [<- | Hin].
        -- destruct (matchHere_prefix _ _ _ _ E) as [[post Hp] _].
           exists "", post. exact Hp.
        -- apply substringOf_tail. eapply IH; eassumption.
      * apply substringOf_tail. eapply IH; eassumption.
    + apply substringOf_tail. eapply IH; eassumption.
Qed.

Lemma matchAll_substring (r : regex) (s m : string) :
  In m (matchAll r s) -> substringOf m s.
Proof. apply matchAllFrom_substring. Qed.

(** Trimming and taking the first line keep a piece of the text. *)
Lemma trimStart_suffix (s : string) : suffixOf (trimStart s) s.
Proof.
  induction s as [| c s IH]; simpl; [apply suffixOf_refl |].
  destruct (isSpace c); [now apply suffixOf_tail | apply suffixOf_refl].
Qed.

Lemma trimEnd_prefix (s : string) : exists post, s = trimEnd s ++ post.
Proof.
  induction s as [| c s [post IH]]; simpl; [now exists "" |].
  destruct (trimEnd s) as [| d t] eqn:E.
  - destruct (isSpace c).
    + now exists (String c s).
    + exists s. reflexivity.
  - exists post. simpl. now rewrite IH at 1.
Qed.

Lemma trim_substring (s : string) : substringOf (trim s) s.
Proof.
  unfold trim. destruct (trimStart_suffix s) as [pre E].
  destruct (trimEnd_prefix (trimStart s)) as [post E'].
  exists pre, post. now rewrite <- E'.
Qed.

Lemma firstLineOf_prefix (s : string) : exists post, s = firstLineOf s ++ post.
Proof.
  induction s as [| c s [post IH]]; simpl; [now exists "" |].
  destruct (Ascii.eqb c LF).
  - now exists (String c s).
  - exists post. simpl. now rewrite IH at 1.
Qed.

End RegexFacts.

(** ** More on the move extractor *)

Module ExtractorMore.
Import JsText Regex Grok Fragments RegexFacts.

Lemma potentialMoves_substring (cleaned reasoning m : string) :
  In m (potentialMoves cleaned reasoning) ->
  substringOf m (cleaned ++ " " ++ reasoning).
Proof.
  unfold potentialMoves. intros Hin.
  apply in_app_or in Hin as [Hin | Hin].
  { unfold directMoves in Hin. destruct (_ && _); [| destruct Hin].
    destruct Hin as [<- | []]. apply substringOf_left, substringOf_refl. }
  apply in_app_or in Hin as [Hin | Hin].
  { unfold extractMovesFromText in Hin.
    apply in_flat_map in Hin as [r [_ Hm]].
    apply substringOf_left. now apply matchAll_substring in Hm. }
  apply in_app_or in Hin as [Hin | Hin].
  { destruct (truthy reasoning); [| destruct Hin].
    unfold extractMovesFromText in Hin.
    apply in_flat_map in Hin as [r [_ Hm]].
    do 2 apply substringOf_right. now apply matchAll_substring in Hm. }
  unfold contextMoves in Hin.
  apply in_flat_map in Hin as [r [_ Hm]].
  destruct (exec r _) as [[whole [mv |]] |] eqn:E; try destruct Hm.
  destruct (truthy mv); [| destruct Hm].
  destruct Hm as [<- | []].
  destruct (exec_substring _ _ _ _ E) as [_ Hc]. now apply Hc.
Qed.

(** X1. The extractor never makes text up: whatever it returns occurs
    in the trimmed response followed by a space and the reasoning text. *)
Theorem extract_returns_piece_of_text
    (responseText reasoningText : string) (legalMoves : option (list string)) :
  substringOf (extractValidChessMove responseText reasoningText legalMoves)
              (trim responseText ++ " " ++ reasoningText).
Proof.
  unfold extractValidChessMove.
  destruct (_ && _); [apply substringOf_empty |].
  destruct (errorDetected _ _); [apply substringOf_empty |].
  cbv zeta.
  set (cleaned := trim responseText).
  set (potential := potentialMoves cleaned reasoningText).
  assert (Hp : forall m, In m potential ->
                 substringOf m (cleaned ++ " " ++ reasoningText))
    by (intros m; apply potentialMoves_substring).
  assert (Hlast :
    substringOf
      match potential with
      | first :: _ => first
      | [] =>
          if (0 <? length (trim (firstLineOf cleaned)))%nat &&
             (length (trim (firstLineOf cleaned)) <? 10)%nat
          then trim (firstLineOf cleaned) else cleaned
      end (cleaned ++ " " ++ reasoningText)).
  { destruct potential as [| first others] eqn:E.
    - destruct (_ && _).
      + apply substringOf_left.
        eapply substringOf_trans; [apply trim_substring |].
        destruct (firstLineOf_prefix cleaned) as [post Hpost].
        exists "", post. exact Hpost.
      + apply substringOf_left, substringOf_refl.
    - apply Hp. now left. }
  destruct legalMoves as [[| l0 legal] |]; try exact Hlast.
  destruct potential as [| first others] eqn:E; [exact Hlast |].
  destruct (filter _ (first :: others)) as [| y ys] eqn:F; [exact Hlast |].
  apply Hp.
  assert (Hy : In y (filter (matchesLegal (l0 :: legal)) (first :: others)))
    by (rewrite F; now left).
  now apply filter_In in Hy.
Qed.

(** X2. A response that, once trimmed, is a bare move of fewer than six
    characters accepted by the short-move pattern, is not caught by the
    error guard and is one of the legal moves supplied, is returned as it
    stands. *)
Theorem bare_legal_move_returned_verbatim
    (responseText reasoningText : string) (legal : list string) :
  (length (trim responseText) < 6)%nat ->
  test shortMoveRegex (trim responseText) = true ->
  errorDetected (trim responseText) reasoningText = false ->
  In (trim responseText) legal ->
  extractValidChessMove responseText reasoningText (Some legal)
    = trim responseText.
Proof.
  intros Hlen Htest Hguard Hin. unfold extractValidChessMove.
  destruct responseText as [| c s] eqn:Er.
  { discriminate Htest. }
  rewrite <- Er in *. replace (truthy responseText) with true by (now subst).
  simpl negb. rewrite andb_false_l, Hguard. cbv zeta.
  unfold potentialMoves at 1 2, directMoves.
  apply Nat.ltb_lt in Hlen. rewrite Hlen, Htest. simpl app.
  destruct legal as [| l0 legal']; [destruct Hin |].
  assert (Hm : matchesLegal (l0 :: legal') (trim responseText) = true).
  { unfold matchesLegal, arrayIncludes. apply orb_true_iff. left.
    apply existsb_exists. exists (trim responseText).
    split; [exact Hin | apply String.eqb_refl]. }
  cbn [filter]. now rewrite Hm.
Qed.

Lemma bare_legal_move_witness :
  extractValidChessMove "  Nf3 " "" (Some ["e4"; "Nf3"]) = "Nf3" /\
  extractValidChessMove "O-O" "castling is safest" (Some ["O-O"; "Kf1"]) = "O-O".
Proof.
  split.
  - apply (bare_legal_move_returned_verbatim "  Nf3 " "" ["e4"; "Nf3"]);
      [simpl; lia | reflexivity | reflexivity | simpl; tauto].
  - apply (bare_legal_move_returned_verbatim "O-O" "castling is safest" ["O-O"; "Kf1"]);
      [simpl; lia | reflexivity | reflexivity | simpl; tauto].
Defined.

End ExtractorMore.

(** ** Reading the replies *)

Module ParserFacts.
Import JsText Regex Grok Models Parsers Fragments RegexFacts.

Lemma firstMove_substring (r : regex) (text : string) :
  substringOf (firstMove r text) text.
Proof.
  unfold firstMove. destruct (exec r text) as [[m cap] |] eqn:E.
  - now destruct (exec_substring _ _ _ _ E).
  - apply substringOf_empty.
Qed.

(** X3. Whatever the reply, the move a parser returns is a piece of the
    text of the reply (the empty move included): the parsers of the
    O-series, OpenAI and Gemini adapters never return a move that the
    model did not write. *)
Theorem parsed_move_occurs_in_reply (data : chatData) (content : string) :
  (forall a, parseOModelResponse data = Return a ->
     substringOf (ai_move a) (thinking a)) /\
  (forall a, openai_parseResponse data = Return a ->
     substringOf (ai_move a) (thinking a)) /\
  substringOf (ai_move (gemini_parseResponse content))
              (thinking (gemini_parseResponse content)).
Proof.
  split; [| split].
  - intros a H. destruct data; simpl in H; try discriminate;
      injection H as <-; simpl;
      [apply firstMove_substring | apply substringOf_empty ..].
  - intros a H. destruct data as [m | c | |]; simpl in H; try discriminate;
      injection H as <-; simpl.
    + destruct (_ && _); [apply trim_substring | apply firstMove_substring].
    + apply substringOf_empty.
  - apply firstMove_substring.
Qed.

Lemma parsed_move_witness :
  substringOf "Nf3" "I will answer Nf3, developing." /\
  parseOModelResponse (Choices "I will answer Nf3, developing.")
    = Return {| ai_move := "Nf3"; thinking := "I will answer Nf3, developing." |}.
Proof.
  destruct (parsed_move_occurs_in_reply
              (Choices "I will answer Nf3, developing.") "") as [H _].
  split; [| reflexivity].
  exact (H _ eq_refl).
Defined.

Lemma all_captures_checked :
  forallb (fun f1 => forallb (fun f2 => forallb (captureParsedBy f1 f2) ranks) files)
          files = true.
Proof. vm_compute. reflexivity. Qed.

(** X4. A reply that consists of a pawn capture such as [cxd4] is
    returned as the move by the OpenAI parser, whose pattern has a case
    for it, but the parsers of the O-series and Gemini adapters, whose
    pattern has none, return the empty move for it. *)
Theorem pawn_capture_lost_by_gemini_and_o_series (f1 f2 r : ascii) :
  In f1 files -> In f2 files -> In r ranks ->
  openai_parseResponse (Choices (pawnCapture f1 f2 r))
    = Return {| ai_move := pawnCapture f1 f2 r; thinking := pawnCapture f1 f2 r |} /\
  parseOModelResponse (Choices (pawnCapture f1 f2 r))
    = Return {| ai_move := ""; thinking := pawnCapture f1 f2 r |} /\
  gemini_parseResponse (pawnCapture f1 f2 r)
    = {| ai_move := ""; thinking := pawnCapture f1 f2 r |}.
Proof.
  intros H1 H2 H3.
  pose proof all_captures_checked as Hall.
  rewrite forallb_forall in Hall. specialize (Hall f1 H1).
  rewrite forallb_forall in Hall. specialize (Hall f2 H2).
  rewrite forallb_forall in Hall. specialize (Hall r H3).
  unfold captureParsedBy in Hall.
  remember (pawnCapture f1 f2 r) as text eqn:Et.
  unfold openai_parseResponse, parseOModelResponse, gemini_parseResponse in *.
  cbv zeta in *. cbn [ai_move] in Hall.
  apply andb_true_iff in Hall as [Hall Hg].
  apply andb_true_iff in Hall as [Ho Hm].
  apply String.eqb_eq in Ho, Hm, Hg.
  rewrite Ho, Hm. auto.
Qed.

Lemma pawn_capture_witness :
  openai_parseResponse (Choices "cxd4")
    = Return {| ai_move := "cxd4"; thinking := "cxd4" |} /\
  parseOModelResponse (Choices "cxd4")
    = Return {| ai_move := ""; thinking := "cxd4" |} /\
  gemini_parseResponse "cxd4" = {| ai_move := ""; thinking := "cxd4" |}.
Proof.
  apply (pawn_capture_lost_by_gemini_and_o_series "c" "d" "4");
    unfold files, ranks; simpl; tauto.
Defined.

(** X5. The OpenAI parser never turns a short reply into the empty move:
    when the trimmed reply has one to five characters, the move is the
    token found in it or else the trimmed reply itself. *)
Theorem openai_short_reply_has_move (content : string) :
  (0 < length (trim content) < 6)%nat ->
  exists a, openai_parseResponse (Choices content) = Return a /\
            ai_move a <> "" /\
            (ai_move a = firstMove captureMoveRegex content \/
             ai_move a = trim content).
Proof.
  intros [Hpos Hlt]. simpl. eexists. split; [reflexivity |]. simpl.
  apply Nat.ltb_lt in Hpos as Hp. apply Nat.ltb_lt in Hlt as Hl.
  rewrite Hp, Hl, !andb_true_r.
  destruct (firstMove captureMoveRegex content) as [| c m] eqn:E; simpl.
  - split; [| now right]. destruct (trim content); [inversion Hpos | discriminate].
  - split; [discriminate | now left].
Qed.

Lemma openai_short_reply_witness :
  exists a, openai_parseResponse (Choices " Kb9 ") = Return a /\
            ai_move a <> "" /\
            (ai_move a = firstMove captureMoveRegex " Kb9 " \/ ai_move a = trim " Kb9 ").
Proof. apply openai_short_reply_has_move. simpl. lia. Defined.

End ParserFacts.

(** ** The adapters, the catalogue and the course of a call *)

Module AdapterFacts.
Import JsText Regex Grok Models Parsers Catalog Game.

Section Calls.
Context {Position : Type} `{Chess.Engine Position}.

(** X6. An xAI player never makes a move.  The orchestrator never turns
    streaming on, and the branch of [parseResponse] that is not streamed
    throws; so whatever the Grok module answers, the answer of the xAI
    adapter is an exception and [makeNextMove] ends in its [catch] block:
    no move is made, the position and the history stay, and a running
    game is paused. *)
Theorem xai_player_never_moves (g : Game) (reply : result grokResult) :
  (exists e, xaiAnswer g reply = Throw e) /\
  let g' := fst (makeNextMove g (xaiAnswer g reply)) in
  let o := snd (makeNextMove g (xaiAnswer g reply)) in
  (o = NotRunning \/ exists e, o = Failed e) /\
  chess g' = chess g /\
  moveHistory (gameState g') = moveHistory (gameState g) /\
  currentPlayer (gameState g') = currentPlayer (gameState g) /\
  (status (gameState g) = running -> status (gameState g') = paused).
Proof.
  assert (Hthrow : exists e, xaiAnswer g reply = Throw e).
  { unfold xaiAnswer, xai_parseResponse, moveConfig.
    destruct reply as [moveData | e]; simpl; eauto. }
  split; [exact Hthrow |].
  destruct Hthrow as [e ->]. cbv zeta. unfold makeNextMove.
  destruct (status (gameState g)) eqn:Hs; simpl;
    try (repeat split; auto; discriminate).
  destruct (moveRequest g); simpl; repeat split; eauto.
Qed.

(** X7. Every conversation the xAI adapter builds is taken for a chess
    conversation by the Grok module (its system prompt says so), so the
    text [streamGrokResponse] returns for it is always the outcome of the
    extractor, never the raw reply. *)
Theorem xai_messages_are_chess_context
    (boardState : Position) (moveHistory : list string) (config : Config)
    (data : GrokRequestData) (model : string) (records : list sseRecord) :
  xai_requestFormat boardState moveHistory config = Return data ->
  checkIfChessContext (rd_messages data) = true /\
  response (snd (streamGrokResponse model (rd_messages data) records))
    = extractValidChessMove
        (fullContent (readStream model records))
        (if String.eqb model "grok-3-mini-beta"
         then fullReasoning (readStream model records) else "")
        None.
Proof.
  intros Hreq.
  assert (Hctx : checkIfChessContext (rd_messages data) = true).
  { unfold xai_requestFormat in Hreq.
    destruct (cfg_retryCount config >? 0)%Z; [discriminate |].
    simpl in Hreq.
    destruct (String.eqb (cfg_model config) "grok-3-mini-beta"
              && (cfg_retryCount config =? 0)%Z);
      injection Hreq as <-; reflexivity. }
  split; [exact Hctx |].
  unfold streamGrokResponse. rewrite Hctx.
  destruct (String.eqb model "grok-3-mini-beta"); reflexivity.
Qed.

(** X8. An OpenAI request carries either a temperature with
    [max_tokens], or [max_completion_tokens] alone, never both and never
    neither: the O-series models (the two listed ones and every id that
    starts with o3- or o4-) are routed to the O-series module, which
    sends [maxTokens || 150], and every other model gets the temperature
    and [maxTokens] of the configuration; the reasoning-model branch of
    [openai.requestFormat] itself is never taken by [callAIModel]. *)
Theorem openai_request_shape
    (boardState : Position) (moveHistory : list string) (config : Config) :
  exists request b,
    callAIModel "openai" boardState moveHistory config = Return request /\
    chatBodyOf request = Some b /\
    b_model b = cfg_model config /\
    (isOSeriesModel (cfg_model config) = true ->
       request = generateOModelRequest boardState moveHistory config /\
       b_temperature b = None /\ b_max_tokens b = None /\
       b_max_completion_tokens b = Some (numOr (cfg_maxTokens config) 150)) /\
    (isOSeriesModel (cfg_model config) = false ->
       request = openai_requestFormat boardState moveHistory config /\
       b_temperature b = Some (cfg_temperature config) /\
       b_max_tokens b = Some (cfg_maxTokens config) /\
       b_max_completion_tokens b = None).
Proof.
  unfold callAIModel. simpl.
  destruct (isOSeriesModel (cfg_model config)) eqn:Ho.
  - eexists. eexists. split; [reflexivity |]. split; [reflexivity |].
    split; [reflexivity |]. split; [auto | discriminate].
  - assert (Hr : startsWith "o4-" (cfg_model config)
                 || startsWith "o3-" (cfg_model config) = false).
    { unfold isOSeriesModel in Ho.
      apply orb_false_iff in Ho as [Ho H4]. apply orb_false_iff in Ho as [_ H3].
      now rewrite H3, H4. }
    eexists. eexists. split; [reflexivity |].
    unfold openai_requestFormat, chatBodyOf. cbn [body].
    split; [reflexivity |]. cbn [b_model b_temperature b_max_tokens b_max_completion_tokens].
    rewrite Hr.
    split; [reflexivity |]. split; [discriminate |]. intros _. auto.
Qed.


End Calls.

Lemma openai_request_shape_witness :
  exists request b,
    callAIModel "openai" Script.ending []
      (configOf "sk-key" "o3-mini" 0.7%float 0 None None 0 [] None) = Return request /\
    chatBodyOf request = Some b /\
    b_temperature b = None /\ b_max_tokens b = None /\
    b_max_completion_tokens b = Some 150%Z.
Proof.
  destruct (openai_request_shape Script.ending []
              (configOf "sk-key" "o3-mini" 0.7%float 0 None None 0 [] None))
    as [request [b [Hcall [Hbody [_ [Ho _]]]]]].
  destruct (Ho eq_refl) as [_ [Ht [Hm Hc]]].
  exists request, b. repeat split; assumption.
Defined.

Lemma xai_player_never_moves_witness :
  let g := Script.xaiGame 3 in
  let reply := Return {| response := "a4"; reasoning := None |} in
  snd (makeNextMove g (xaiAnswer g reply))
    = Failed (Error "window.GrokModels.extractValidChessMove is not a function") /\
  status (gameState (fst (makeNextMove g (xaiAnswer g reply)))) = paused /\
  chess (fst (makeNextMove g (xaiAnswer g reply))) = chess g.
Proof.
  intros g reply.
  destruct (xai_player_never_moves g reply) as [_ [_ [Hc [_ [_ Hp]]]]].
  split; [reflexivity |]. split; [exact (Hp eq_refl) | exact Hc].
Defined.

Lemma xai_messages_witness :
  exists data,
    xai_requestFormat Script.ending []
      (configOf "xai-key" "grok-3-latest" 0.7%float 2048 None None 0 [] None)
      = Return data /\
    checkIfChessContext (rd_messages data) = true /\
    response (snd (streamGrokResponse "grok-3-latest" (rd_messages data)
                     [Delta "I play " ""; Delta "a4" ""])) = "a4".
Proof.
  eexists. split; [reflexivity |].
  destruct (xai_messages_are_chess_context Script.ending []
              (configOf "xai-key" "grok-3-latest" 0.7%float 2048 None None 0 [] None)
              _ "grok-3-latest" [Delta "I play " ""; Delta "a4" ""] eq_refl)
    as [Hctx Hresp].
  split; [exact Hctx |]. rewrite Hresp. reflexivity.
Defined.

(** X10. Cleaning the messages for the Grok API keeps their number, roles
    and contents, keeps a reasoning text only on an assistant message of
    the mini model, and cleaning twice changes nothing more. *)
Theorem cleanedMessages_idempotent (model : string) (messages : list Message) :
  cleanedMessages model (cleanedMessages model messages)
    = cleanedMessages model messages /\
  map role (cleanedMessages model messages) = map role messages /\
  map content (cleanedMessages model messages) = map content messages /\
  (forall m, In m (cleanedMessages model messages) ->
     reasoning_content m <> None ->
     model = "grok-3-mini-beta" /\ role m = "assistant").
Proof.
  unfold cleanedMessages. rewrite !map_map. simpl.
  split; [| split; [reflexivity | split; [reflexivity |]]].
  - apply map_ext. intros m. simpl. f_equal.
    destruct (String.eqb model "grok-3-mini-beta" && String.eqb (role m) "assistant");
      [| reflexivity].
    destruct (reasoning_content m) as [r |]; [| reflexivity].
    destruct (truthy r) eqn:Hr; [now rewrite Hr | reflexivity].
  - intros m Hin Hsome.
    apply in_map_iff in Hin as [m0 [<- _]]. simpl in *.
    destruct (String.eqb model "grok-3-mini-beta") eqn:E1; [| now elim Hsome].
    destruct (String.eqb (role m0) "assistant") eqn:E2; [| now elim Hsome].
    apply String.eqb_eq in E1, E2. auto.
Qed.

Lemma cleanedMessages_witness :
  let example := {| role := "assistant"; content := "e4";
                    reasoning_content := Some "Looking at this position" |} in
  reasoning_content example <> None /\
  In example (cleanedMessages "grok-3-mini-beta" [msg "system" "s"; example]) /\
  map reasoning_content (cleanedMessages "grok-3-latest" [msg "system" "s"; example])
    = [None; None].
Proof.
  intros example.
  assert (Hin : In example (cleanedMessages "grok-3-mini-beta" [msg "system" "s"; example]))
    by (right; left; reflexivity).
  assert (Hr : reasoning_content example <> None) by discriminate.
  destruct (cleanedMessages_idempotent "grok-3-mini-beta" [msg "system" "s"; example])
    as [_ [_ [_ Hkeep]]].
  destruct (Hkeep example Hin Hr) as [_ _].
  repeat split; [exact Hr | exact Hin].
Defined.

(** X11. [sendGrokRequest] sends a request exactly when the key is not
    empty, the model is one of the two Grok models and there is at least
    one message; the request then goes to the Grok endpoint with the key
    as bearer token, names the model and carries the stream flag. *)
Theorem sendGrokRequest_sends_iff
    (apiKey model : string) (messages : list Message) (options : GrokOptions)
    (stream : bool) :
  ((exists request, sendGrokRequest apiKey model messages options stream = Return request)
   <-> apiKey <> "" /\
       (model = "grok-3-mini-beta" \/ model = "grok-3-latest") /\
       messages <> []) /\
  (forall request,
     sendGrokRequest apiKey model messages options stream = Return request ->
     url request = GROK_API_URL /\
     authorization request = Some ("Bearer " ++ apiKey) /\
     exists b, chatBodyOf request = Some b /\
               b_model b = model /\ b_stream b = Some stream /\
               List.length (b_messages b) = List.length messages).
Proof.
  unfold sendGrokRequest. split.
  - split.
    + intros [request Hr].
      destruct (truthy apiKey) eqn:Hk; cbn [negb] in Hr; [| discriminate].
      destruct (negb (truthy model) ||
                negb (String.eqb model "grok-3-mini-beta") &&
                negb (String.eqb model "grok-3-latest")) eqn:Hm; [discriminate |].
      destruct messages as [| m0 ms]; [discriminate |].
      apply orb_false_iff in Hm as [_ Hm].
      split; [intros ->; discriminate |]. split; [| discriminate].
      destruct (String.eqb model "grok-3-mini-beta") eqn:E1.
      * left. now apply String.eqb_eq.
      * right. destruct (String.eqb model "grok-3-latest") eqn:E2;
          [now apply String.eqb_eq | discriminate].
    + intros [Hk [Hm Hmsg]].
      destruct apiKey; [now elim Hk |].
      destruct messages; [now elim Hmsg |].
      destruct Hm as [-> | ->]; simpl; eauto.
  - intros request Hr.
    destruct (negb (truthy apiKey)); [discriminate |].
    destruct (_ || _); [discriminate |].
    destruct messages as [| m0 ms]; [discriminate |].
    injection Hr as <-. unfold withBearer, grokBody, chatBodyOf. cbn [url authorization body].
    split; [reflexivity |]. split; [reflexivity |].
    eexists. split; [reflexivity |]. cbn [b_model b_stream b_messages].
    unfold cleanedMessages. rewrite length_map. auto.
Qed.

Lemma sendGrokRequest_witness :
  (exists request,
     sendGrokRequest "xai-key" "grok-3-latest" [msg "user" "Your move"]
       {| o_temperature := 0.7%float; o_max_tokens := 2048; o_reasoning_effort := None |}
       false = Return request) /\
  sendGrokRequest "" "grok-3-latest" [msg "user" "Your move"]
    {| o_temperature := 0.7%float; o_max_tokens := 2048; o_reasoning_effort := None |}
    false = Throw (Error "API key is required").
Proof.
  split; [| reflexivity].
  apply (sendGrokRequest_sends_iff "xai-key" "grok-3-latest").
  repeat split; [discriminate | now right | discriminate].
Defined.


End AdapterFacts.

(** ** Validation, the controls and the errors *)

Module ControlFacts.
Import JsText Grok Models Game Controls Fragments RegexFacts.

Lemma truthy_iff (s : string) : truthy s = true <-> s <> "".
Proof. destruct s; simpl; split; congruence. Qed.

Lemma playerErrors_nil (label : string) (ps : PlayerSettings) :
  playerErrors label ps = [] <-> playerReady ps.
Proof.
  unfold playerErrors, playerReady. cbv zeta.
  destruct (truthy (provider ps)) eqn:Hp;
  destruct (truthy (model ps)) eqn:Hm;
  destruct (truthy (apiKey ps)) eqn:Hk; cbn [negb app];
    try (split; [discriminate |];
         intros [H1 [H2 [H3 _]]];
         apply truthy_iff in H1, H2, H3; congruence).
  apply truthy_iff in Hp, Hm, Hk.
  destruct (String.eqb (provider ps) "xai") eqn:Ex; cbn [andb].
  - apply String.eqb_eq in Ex.
    destruct (startsWith "xai-" (apiKey ps)) eqn:Es; cbn [negb].
    + split; [intros _; repeat split; auto | reflexivity].
    + split; [discriminate |]. intros [_ [_ [_ Hx]]]. specialize (Hx Ex). discriminate.
  - split; [| reflexivity]. intros _. repeat split; auto.
    intros Hx. rewrite Hx in Ex. discriminate.
Qed.

Section Buttons.
Context {Position : Type} `{Chess.Engine Position}.
Variable startPosition : Position.

(** X12. The settings are valid exactly when each player has a provider,
    a model and a key, an xAI key starting with xai-; with settings that
    are not valid the Start button changes nothing and calls no AI. *)
Theorem start_needs_valid_settings (g : Game) (answer : result AiResponse) :
  (fst (validateSettings (settings g)) = true <->
   playerReady (whitePlayer (settings g)) /\ playerReady (blackPlayer (settings g))) /\
  (~ (playerReady (whitePlayer (settings g)) /\ playerReady (blackPlayer (settings g))) ->
   startGame g answer = (g, None)).
Proof.
  assert (Hiff : fst (validateSettings (settings g)) = true <->
                 playerReady (whitePlayer (settings g)) /\
                 playerReady (blackPlayer (settings g))).
  { unfold validateSettings. simpl. rewrite Nat.eqb_eq, length_zero_iff_nil.
    rewrite <- !playerErrors_nil. split.
    - intros E. apply app_eq_nil in E. exact E.
    - intros [-> ->]. reflexivity. }
  split; [exact Hiff |].
  intros Hnot. unfold startGame.
  destruct (fst (validateSettings (settings g))) eqn:E; [| reflexivity].
  elim Hnot. now apply Hiff.
Qed.

(** X13. Pause and Start resume play only while no move has been made.
    Once the history is not empty, pausing a running game and starting it
    again leaves it 'running' with the timer cleared and no call of the
    AI: nothing is scheduled to make the next move.  With an empty
    history Start calls [makeNextMove] at once. *)
Theorem pause_then_start (g : Game) (answer : result AiResponse) :
  fst (validateSettings (settings g)) = true ->
  status (gameState g) = running ->
  let cleared :=
    {| chess := chess g; gameState := gameState g; settings := settings g;
       moveTimer := None; retryCount := retryCount g; sent := sent g |} in
  (moveHistory (gameState g) <> [] ->
     startGame (pauseGame g) answer = (cleared, None)) /\
  (moveHistory (gameState g) = [] ->
     startGame (pauseGame g) answer
       = (fst (makeNextMove cleared answer), Some (snd (makeNextMove cleared answer)))).
Proof.
  intros Hvalid Hrun cleared. subst cleared.
  unfold pauseGame, startGame. rewrite Hrun. cbn [settings gameState status].
  rewrite Hvalid. cbn [negb].
  destruct g as [c [st pl mh] s t rc se]. simpl in *. subst st.
  unfold setStatus. simpl. split.
  - intros Hne. destruct mh; [now elim Hne | reflexivity].
  - intros ->. now destruct (makeNextMove _ answer).
Qed.




(** X16. The piece inventory written into the retry prompt is complete:
    every piece on a square of the 8 by 8 board is named in it, with its
    colour, its kind and its square. *)
Theorem inventory_names_every_piece
    (position : Position) (row col : nat) (piece : Chess.Piece) :
  (row < 8)%nat -> (col < 8)%nat ->
  nth col (nth row (Chess.board position) []) None = Some piece ->
  let item := getPieceName (Chess.ptype piece) (Chess.color piece)
              ++ " at " ++ squareName row col in
  In item (boardEntries position) /\
  describeBoardState position = join ", " (boardEntries position) /\
  substringOf item (describeBoardState position).
Proof.
  intros Hr Hc Hp item.
  assert (Hin : In item (boardEntries position)).
  { unfold boardEntries. apply in_flat_map. exists row.
    split; [apply in_seq; lia |].
    apply in_flat_map. exists col. split; [apply in_seq; lia |].
    rewrite Hp. now left. }
  split; [exact Hin |]. split; [reflexivity |].
  change (describeBoardState position) with (join ", " (boardEntries position)).
  revert Hin. generalize (boardEntries position) as l.
  induction l as [| x l IH]; intros Hin; [destruct Hin |].
  destruct Hin as [-> | Hin].
  - destruct l; simpl; [apply substringOf_refl |].
    apply substringOf_left, substringOf_refl.
  - destruct l as [| y l']; [destruct Hin |].
    change (join ", " (x :: y :: l')) with (x ++ ", " ++ join ", " (y :: l')).
    do 2 apply substringOf_right. now apply IH.
Qed.

End Buttons.

(** With the default settings, which name no provider, Start does
    nothing. *)
Lemma start_needs_valid_settings_witness :
  startGame {| chess := Script.ending;
               gameState := {| status := idle; currentPlayer := white; moveHistory := [] |};
               settings := defaults; moveTimer := None; retryCount := 0; sent := [] |}
            (answerMove "a4")
  = ({| chess := Script.ending;
        gameState := {| status := idle; currentPlayer := white; moveHistory := [] |};
        settings := defaults; moveTimer := None; retryCount := 0; sent := [] |}, None).
Proof.
  apply start_needs_valid_settings.
  intros [[Hp _] _]. now apply Hp.
Defined.

Lemma pause_then_start_witness :
  let g := fst (resolvePly [answerMove "a4"] (Script.openaiGame 3)) in
  moveHistory (gameState g) = ["a4"] /\
  moveTimer g = Some 1000%Z /\
  exists stalled,
    startGame (pauseGame g) (answerMove "h5") = (stalled, None) /\
    status (gameState stalled) = running /\
    moveTimer stalled = None /\
    sent stalled = sent g.
Proof.
  intros g. split; [reflexivity |]. split; [reflexivity |].
  destruct (pause_then_start g (answerMove "h5") eq_refl eq_refl) as [Hstall _].
  eexists. split; [apply Hstall; discriminate |].
  repeat split.
Defined.



Lemma inventory_witness :
  In "White pawn at a2" (boardEntries Script.ending) /\
  substringOf "White pawn at a2" (describeBoardState Script.ending).
Proof.
  destruct (inventory_names_every_piece Script.ending 6 0
              {| Chess.ptype := "p"; Chess.color := "w" |})
    as [Hin [_ Hsub]]; [lia | lia | reflexivity | ].
  split; assumption.
Defined.



End ControlFacts.

(** ** The saved games and their replay *)

Module HistoryFacts.
Import JsText Models History.

Lemma firstn_sub {A} (n : nat) (l : list A) (x : A) : In x (firstn n l) -> In x l.
Proof.
  revert n. induction l as [| y l IH]; intros [| n] Hin; simpl in *; try tauto.
  destruct Hin as [-> | Hin]; [now left | right; eapply IH; eassumption].
Qed.

(** X18. After [addGame] the history begins with the new game and holds
    at most twenty games, whatever it held before: it is the first
    twenty of the new game followed by the old ones, so nothing is lost
    while fewer than twenty games were stored. *)
Theorem addGame_keeps_first_twenty (games : list SavedGame) (game : SavedGame) :
  addGame games game = firstn 20 (game :: games) /\
  (List.length (addGame games game) <= 20)%nat /\
  hd_error (addGame games game) = Some game /\
  (forall g, In g (addGame games game) -> g = game \/ In g games) /\
  ((List.length games < 20)%nat -> addGame games game = game :: games).
Proof.
  assert (E : addGame games game = firstn 20 (game :: games)).
  { unfold addGame. cbv zeta.
    destruct (Nat.ltb_spec 20 (List.length (game :: games))); [reflexivity |].
    symmetry. now apply firstn_all2. }
  split; [exact E |]. rewrite E. split; [apply firstn_le_length |].
  split; [reflexivity |]. split.
  - intros g Hin. apply firstn_sub in Hin. destruct Hin; auto.
  - intros Hlt. apply firstn_all2. simpl. lia.
Qed.

Lemma addGame_witness :
  let old := {| game_id := "1"; game_moves := ["e4"]; game_result := None;
                game_winner := None |} in
  let new := {| game_id := "2"; game_moves := []; game_result := None;
                game_winner := None |} in
  addGame [old] new = [new; old] /\
  List.length (addGame (repeat old 25) new) = 20%nat.
Proof.
  intros old new. split.
  - apply addGame_keeps_first_twenty. simpl. lia.
  - reflexivity.
Defined.

Section Replay.
Context {Position : Type} `{Chess.Engine Position}.
Variable startPosition : Position.

(** X19. [removeGame] removes every game with the given id and no other,
    keeping the order of the rest; afterwards that id cannot be loaded
    for replay: [loadGameForReplay] leaves the replay as it was. *)
Theorem removeGame_removes_id
    (games : list SavedGame) (gameId : string) (st : ReplayState) :
  (forall g, In g (removeGame games gameId) <-> In g games /\ game_id g <> gameId) /\
  removeGame games gameId
    = filter (fun g => negb (String.eqb (game_id g) gameId)) games /\
  findGame (removeGame games gameId) gameId = None /\
  loadGameForReplay startPosition (removeGame games gameId) st gameId = st.
Proof.
  assert (Hin : forall g, In g (removeGame games gameId)
                          <-> In g games /\ game_id g <> gameId).
  { intros g. unfold removeGame. rewrite filter_In, negb_true_iff.
    split; intros [Hg Hid]; split; auto.
    - intros E. apply String.eqb_eq in E. congruence.
    - destruct (String.eqb (game_id g) gameId) eqn:E; [| reflexivity].
      apply String.eqb_eq in E. contradiction. }
  assert (Hfind : findGame (removeGame games gameId) gameId = None).
  { unfold findGame. destruct (find _ _) as [g |] eqn:E; [| reflexivity].
    apply find_some in E as [Hg Hid].
    apply Hin in Hg as [_ Hne]. apply String.eqb_eq in Hid. contradiction. }
  split; [exact Hin |]. split; [reflexivity |]. split; [exact Hfind |].
  unfold loadGameForReplay. now rewrite Hfind.
Qed.




End Replay.

Lemma removeGame_witness :
  let a := {| game_id := "1"; game_moves := ["a4"]; game_result := None;
              game_winner := None |} in
  let b := {| game_id := "2"; game_moves := []; game_result := None;
              game_winner := None |} in
  In b (removeGame [a; b; a] "1") /\ removeGame [a; b; a] "1" = [b].
Proof.
  intros a b. split; [| reflexivity].
  apply (removeGame_removes_id Script.ending [a; b; a] "1"
           {| game := None; position := Script.ending; currentMoveIndex := -1 |}).
  split; [simpl; tauto | discriminate].
Defined.


End HistoryFacts.

(** ** The squares of the board and the drawing of a position *)

Module ChessboardFacts.
Import JsText Models Chessboard.

(** X21. Naming a square and reading the name back give the same
    indices, for the rows 0 to 8 and every column whose letter is an
    8-bit character; and the names [describeBoardState] uses for the
    rules engine's board (row 0 is rank 8) are those of the drawn board. *)
Theorem square_name_round_trip (r c : Z) :
  (0 <= r <= 8)%Z -> (0 <= c <= 158)%Z ->
  _positionToIndex (_indexToPosition r c) = {| row := Some r; col := Some c |} /\
  (forall i j : nat, (i < 8)%nat -> (j < 8)%nat ->
     Game.squareName i j = _indexToPosition (7 - Z.of_nat i) (Z.of_nat j)).
Proof.
  intros Hr Hc. split.
  - unfold _positionToIndex, _indexToPosition.
    assert (Hcol : (Z.of_nat (code (ascii_of_nat (Z.to_nat (97 + c)))) - 97)%Z = c).
    { unfold code. rewrite nat_ascii_embedding by lia. lia. }
    assert (Hcases : (r = 0 \/ r = 1 \/ r = 2 \/ r = 3 \/ r = 4 \/ r = 5 \/ r = 6
                      \/ r = 7 \/ r = 8)%Z) by lia.
    destruct Hcases as [-> | [-> | [-> | [-> | [-> | [-> | [-> | [-> | ->]]]]]]]];
      cbn -[ascii_of_nat Z.to_nat Z.add code]; rewrite Hcol; reflexivity.
  - intros i j Hi Hj.
    do 8 (destruct i as [| i]; [do 8 (destruct j as [| j]; [reflexivity |]); lia |]).
    lia.
Qed.

Lemma square_name_witness :
  _indexToPosition 3 4 = "e4" /\
  _positionToIndex "e4" = {| row := Some 3%Z; col := Some 4%Z |} /\
  Game.squareName 4 4 = "e4".
Proof.
  destruct (square_name_round_trip 3 4) as [Hback Hname]; [lia | lia |].
  split; [reflexivity |]. split; [exact Hback |].
  apply (Hname 4%nat 4%nat); lia.
Defined.

Lemma digit_is_no_piece (ch : ascii) :
  between 49 56 ch = true -> isPieceLetter ch = false.
Proof.
  destruct ch as [[] [] [] [] [] [] [] []]; intros E;
    solve [reflexivity | vm_compute in E; discriminate E].
Qed.

Lemma slash_is_no_piece (ch : ascii) :
  Ascii.eqb ch "/" = true -> isPieceLetter ch = false.
Proof. intros E. apply Ascii.eqb_eq in E. now subst. Qed.

Lemma place_draws (placement : string) :
  forall r c added drawn,
    place placement r c added = Return drawn ->
    map snd drawn = (map snd added ++ pieceLetters placement)%list /\
    (Forall onGrid added -> Forall onGrid drawn).
Proof.
  induction placement as [| ch more IH]; intros r c added drawn Hp; simpl in Hp.
  - injection Hp as <-. simpl. now rewrite app_nil_r.
  - simpl pieceLetters.
    destruct (Ascii.eqb ch "/") eqn:Es.
    { rewrite (slash_is_no_piece _ Es). now apply IH in Hp. }
    destruct (between 49 56 ch) eqn:Ed.
    { rewrite (digit_is_no_piece _ Ed). now apply IH in Hp. }
    destruct (isPieceLetter ch) eqn:El; [| now apply IH in Hp].
    destruct ((0 <=? r)%Z && (r <? 8)%Z && (0 <=? c)%Z && (c <? 8)%Z) eqn:Eg;
      [| discriminate].
    apply IH in Hp as [Hm Hg]. split.
    + rewrite Hm, map_app, <- app_assoc. reflexivity.
    + intros Hadded. apply Hg. apply Forall_app. split; [exact Hadded |].
      constructor; [| constructor].
      exists r, c. repeat split; try lia; reflexivity.
Qed.

(** X22. When [setPosition] draws a position, the pieces it adds are the
    piece letters of the first field of the FEN, in their order and
    nothing else, each on a square of the 8 by 8 board. *)
Theorem setPosition_draws_the_placement (fen : string) (drawn : list (string * ascii)) :
  setPosition fen = Return drawn ->
  map snd drawn = pieceLetters (firstField fen) /\
  Forall onGrid drawn.
Proof.
  intros Hs. unfold setPosition in Hs.
  destruct (place_draws _ _ _ _ _ Hs) as [Hm Hg].
  split; [exact Hm | apply Hg; constructor].
Qed.

Lemma setPosition_witness :
  setPosition "7k/7p/8/8/8/8/P7/K7 w - - 0 1"
    = Return [("h8", "k"%char); ("h7", "p"%char); ("a2", "P"%char); ("a1", "K"%char)] /\
  map snd [("h8", "k"%char); ("h7", "p"%char); ("a2", "P"%char); ("a1", "K"%char)]
    = pieceLetters (firstField "7k/7p/8/8/8/8/P7/K7 w - - 0 1") /\
  setPosition "ppppppppp/8/8/8/8/8/8/8 w - - 0 1"
    = Throw (Error "Cannot read properties of undefined").
Proof.
  split; [reflexivity |]. split; [| reflexivity].
  now apply (setPosition_draws_the_placement "7k/7p/8/8/8/8/P7/K7 w - - 0 1").
Defined.

End ChessboardFacts.
